(** * Read/write routing facade over two database connections

    A shallow embedding of [src/lib/prisma.ts]: the write classifier, the
    per-entity method proxy, the [$transaction] router, the health check,
    the shutdown routine and the construction of the two clients.

    JavaScript values live in a small value type; objects live in a store
    and are reached through references, so that copying an object and
    mutating the copy can be told apart from mutating the original.  The
    database clients themselves are external: every request the module sends
    to one of them is appended to a trace, and the reply comes from an
    arbitrary function of the world in which the request is made. *)

From Stdlib Require Import ZArith String Ascii List Bool Lia.
From stdpp Require Import base option list strings pretty.

Local Open Scope string_scope.
Local Open Scope list_scope.

(** ** Values and the object store *)

Module JS.

Definition loc := nat.

(** A promise is identified with its settlement: [VFulfilled v] is a promise
    that fulfils with [v], [VRejected r] one that rejects with reason [r].
    [VError m] is an instance of [Error] whose [message] is [m].
    [VReadOnlyError m refusal] is an instance of [Error] whose [message]
    reads [m] and cannot be assigned (a frozen error, or one whose [message]
    has a getter only, as a [DOMException]): in a module, which is strict
    code, the assignment throws a [TypeError], and [refusal] is the message
    of that [TypeError] (its wording is the engine's).  Numbers are the
    integers and NaN; fractions are left out (all of them are truthy). *)
Inductive value : Type :=
| VUndefined
| VNull
| VBool (b : bool)
| VNum (n : Z)
| VNaN
| VStr (s : string)
| VRef (l : loc)
| VError (message : string)
| VReadOnlyError (message refusal : string)
| VFulfilled (v : value)
| VRejected (reason : value).

(** An object is the list of its own enumerable string-keyed properties, in
    the order they were added (that an engine enumerates integer-like keys
    first is not modelled); the store maps an address to the object that
    lives there. *)
Abbreviation obj := (list (string * value)).
Abbreviation store := (list obj).

(** Truthiness, as tested by [if (v)] and [v || w]. *)
Definition truthy (v : value) : bool :=
  match v with
  | VUndefined | VNull | VNaN => false
  | VBool b => b
  | VNum n => negb (n =? 0)%Z
  | VStr s => negb (String.eqb s "")
  | VRef _ | VError _ | VReadOnlyError _ _ | VFulfilled _ | VRejected _ => true
  end.

Fixpoint lookup_key (k : string) (o : obj) : option value :=
  match o with
  | [] => None
  | (k', v) :: o' => if String.eqb k k' then Some v else lookup_key k o'
  end.

Definition has_key (k : string) (o : obj) : bool :=
  match lookup_key k o with Some _ => true | None => false end.

(** [delete o[k]] on an object. *)
Fixpoint delete_key (k : string) (o : obj) : obj :=
  match o with
  | [] => []
  | (k', v) :: o' =>
      if String.eqb k k' then delete_key k o' else (k', v) :: delete_key k o'
  end.

Fixpoint chars_from (i : nat) (s : string) : obj :=
  match s with
  | EmptyString => []
  | String c s' => (pretty i, VStr (String c EmptyString)) :: chars_from (S i) s'
  end.

(** The own enumerable properties that [{...v}] and a rest pattern copy:
    those of the object for a reference, the indexed characters for a string,
    none for the other values (the [message] of an [Error] is not
    enumerable).  A dangling reference has none. *)
Definition own_props (h : store) (v : value) : obj :=
  match v with
  | VRef l => default [] (h !! l)
  | VStr s => chars_from 0 s
  | _ => []
  end.

(** [v?.k] for a key [k] that no built-in prototype defines (the module reads
    only [writeToPrimary] and [timeout] this way). *)
Definition get_prop (h : store) (v : value) (k : string) : value :=
  default VUndefined (lookup_key k (own_props h v)).

End JS.
Export JS.

(** ** Requests to the outside world *)

Inductive Conn : Type := Main | Primary.

(** What the module does that can be observed from outside it. *)
Inductive event : Type :=
| EvCall (c : Conn) (model method : string) (arg : value)
| EvTransaction (c : Conn) (batch options : value)
| EvQueryRaw (c : Conn) (sql : string)
| EvDisconnect (c : Conn)
| EvLog (msg : string)
| EvLogError (msg : string) (detail : option value).

Record world : Type := World { heap : store; trace : list event }.

(** How a piece of code completes: normally with a value, or by throwing. *)
Inductive completion (A : Type) : Type :=
| Normal (a : A)
| Throw (e : value).
Arguments Normal {A} a.
Arguments Throw {A} e.

(** ** The monad of the embedding: state for the world, errors for [throw] *)

Definition M (A : Type) : Type := world -> completion A * world.

Definition ret {A} (a : A) : M A := fun w => (Normal a, w).

Definition bind {A B} (m : M A) (k : A -> M B) : M B :=
  fun w =>
    match m w with
    | (Normal a, w') => k a w'
    | (Throw e, w') => (Throw e, w')
    end.

Definition throw {A} (e : value) : M A := fun w => (Throw e, w).

(** [try { body } catch (error) { handler }] *)
Definition try_catch {A} (body : M A) (handler : value -> M A) : M A :=
  fun w =>
    match body w with
    | (Normal a, w') => (Normal a, w')
    | (Throw e, w') => handler e w'
    end.

Declare Scope js_scope.
Delimit Scope js_scope with js.
Notation "'let*' x ':=' m 'in' k" := (bind m (fun x => k))
  (at level 10, x name, m at level 100, k at level 200) : js_scope.
Notation "m ';;' k" := (bind m (fun _ => k))
  (at level 100, k at level 200, right associativity) : js_scope.
Local Open Scope js_scope.

(** A fresh object: it goes to the end of the store. *)
Definition alloc (o : obj) : M value :=
  fun w => (Normal (VRef (List.length (heap w))),
            {| heap := heap w ++ [o]; trace := trace w |}).

(** [delete v[k]] on the object [v] refers to. *)
Definition delete_prop (v : value) (k : string) : M unit :=
  fun w =>
    match v with
    | VRef l =>
        match heap w !! l with
        | Some o => (Normal tt, {| heap := <[l := delete_key k o]> (heap w);
                                   trace := trace w |})
        | None => (Normal tt, w)
        end
    | _ => (Normal tt, w)
    end.

Definition props_of (v : value) : M obj :=
  fun w => (Normal (own_props (heap w) v), w).

Definition get (v : value) (k : string) : M value :=
  fun w => (Normal (get_prop (heap w) v k), w).

Definition emit (e : event) : M unit :=
  fun w => (Normal tt, {| heap := heap w; trace := trace w ++ [e] |}).

(** [await v]: the fulfilment value of a promise, its rejection reason
    thrown, any other value as it is. *)
Definition await (v : value) : M value :=
  match v with
  | VFulfilled x => ret x
  | VRejected r => throw r
  | _ => ret v
  end.

(** ** The write classifier *)

Definition WRITE_METHODS : list string :=
  [ "create"; "update"; "delete"; "upsert";
    "createMany"; "updateMany"; "deleteMany" ].

(** [Array.prototype.includes] on an array of strings. *)
Fixpoint includes (l : list string) (x : string) : bool :=
  match l with
  | [] => false
  | y :: l' => String.eqb y x || includes l' x
  end.

Definition isWriteMethod (method : string) : bool :=
  includes WRITE_METHODS method.

(** ** cleanOptions *)

(** [const cleaned = { ...args }; keys.forEach(key => delete cleaned[key]);
    return cleaned] *)
Fixpoint delete_each (cleaned : value) (keys : list string) : M unit :=
  match keys with
  | [] => ret tt
  | key :: keys' => delete_prop cleaned key ;; delete_each cleaned keys'
  end.

Definition cleanOptions (args : value) (keys : list string) : M value :=
  let* copied := props_of args in
  let* cleaned := alloc copied in
  delete_each cleaned keys ;;
  ret cleaned.

(** The result of the health check. *)
Inductive health_status : Type := healthy | unhealthy.
Record health : Type := { status : health_status; details : string }.

(** ** The proxies *)

Section Facade.

(** The reply of a connection to a request, in the world where the request is
    made: it returns a value (a promise, for the asynchronous client methods)
    or throws on the spot (calling a method the client does not have throws a
    [TypeError], for instance).  A reply leaves the store as it is: what a
    client does to the objects it is handed is not part of this module. *)
Variable db : world -> event -> completion value.

(** The guard [typeof window === "undefined"]. *)
Variable isServer : bool.

Definition request (e : event) : M value :=
  fun w =>
    let w' := {| heap := heap w; trace := trace w ++ [e] |} in
    (db w e, w').

(** [(args: any = {}) => ...]: the default applies to [undefined] only. *)
Definition default_args (args : value) : M value :=
  match args with
  | VUndefined => alloc []
  | _ => ret args
  end.

Definition context (methodName modelName : string) : string :=
  "Method: " +:+ methodName +:+ ", Model: " +:+ modelName.

(** The function the [get] trap of [createMethodProxy (prismaMain[modelName])
    modelName] returns for the property [method], applied to [args]. *)
Definition createMethodProxy (modelName method : string) (args : value) : M value :=
  let isWrite := isWriteMethod method in
  let* args := default_args args in
  try_catch
    (if isWrite then
       let* flag := get args "writeToPrimary" in
       if truthy flag then
         let* cleaned := cleanOptions args ["writeToPrimary"] in
         request (EvCall Primary modelName method cleaned)
       else
         let* cleaned := cleanOptions args ["writeToPrimary"] in
         request (EvCall Main modelName method cleaned)
     else
       request (EvCall Main modelName method args))
    (fun error =>
       match error with
       | VError message =>
           throw (VError (message +:+ " (" +:+ context method modelName +:+ ")"))
       | VReadOnlyError _ refusal =>
           (* [error.message = ...] throws; [throw error] is not reached *)
           throw (VError refusal)
       | _ => throw error
       end).


(** ** The transaction router *)

Definition error_message (error : value) : string :=
  match error with
  | VError message | VReadOnlyError message _ => message
  | _ => "Unknown error"
  end.

(** The function the [get] trap of [createPrismaProxy] returns for
    [$transaction], applied to [args] (here [batch]) and [options].  It is an
    [async] function: a normal completion is the fulfilment of the promise it
    returns, a throw its rejection.

    [const { writeToPrimary, timeout, ...rest } = options || {}] reads the two
    keys and collects the other own properties in a new object [rest];
    [{ timeout, ...rest }] is a new object with [timeout] first (present even
    when its value is [undefined]) and then the properties of [rest], none of
    which is [timeout]. *)
Definition transaction (batch options : value) : M value :=
  let* source := (if truthy options then ret options else alloc []) in
  let* writeToPrimary := get source "writeToPrimary" in
  let* timeout := get source "timeout" in
  let* props := props_of source in
  let* rest := alloc (delete_key "timeout" (delete_key "writeToPrimary" props)) in
  try_catch
    (if truthy writeToPrimary then
       let* rest_props := props_of rest in
       let* passed := alloc (("timeout", timeout) :: rest_props) in
       let* p := request (EvTransaction Primary batch passed) in
       await p
     else
       let* rest_props := props_of rest in
       let* passed := alloc (("timeout", timeout) :: rest_props) in
       let* p := request (EvTransaction Main batch passed) in
       await p)
    (fun error =>
       emit (EvLogError ("Transaction failed: " +:+ error_message error) None) ;;
       throw error).

(** ** The health check *)

(** [async function checkDatabaseHealth()] *)
Definition checkDatabaseHealth : M health :=
  try_catch
    (let* p := request (EvQueryRaw Main "SELECT 1") in
     await p ;;
     ret {| status := healthy; details := "Database connection successful" |})
    (fun error =>
       ret {| status := unhealthy; details := error_message error |}).

(** ** Shutdown *)

(** [await Promise.all(ps)] for promises that are already settled: the first
    rejection in the order of the array is the one thrown.  (Which of two
    rejections comes first in time is not modelled; nothing below depends on
    which one is reported.) *)
Fixpoint await_all (ps : list value) : M unit :=
  match ps with
  | [] => ret tt
  | p :: ps' => await p ;; await_all ps'
  end.

(** [async function disconnectPrisma()].  The array literal calls
    [prismaMain.$disconnect()] and then [prismaPrimary.$disconnect()]; if
    the first call throws on the spot the second is not made. *)
Definition disconnectPrisma : M unit :=
  try_catch
    (if negb isServer then ret tt
     else
       let* closingMain := request (EvDisconnect Main) in
       let* closingPrimary := request (EvDisconnect Primary) in
       await_all [closingMain; closingPrimary] ;;
       emit (EvLog "Prisma clients disconnected successfully"))
    (fun error =>
       emit (EvLogError "Error disconnecting Prisma clients:" (Some error))).

End Facade.

(** ** Environment and the two clients *)

Module Clients.

(** [process.env]: a variable is a string or is not set. *)
Record Env : Type := {
  DATABASE_URL : option string;
  DATABASE_PRIMARY_URL : option string;
  NODE_ENV : option string
}.

(** Truthiness of [process.env.X]: set, and not the empty string. *)
Definition env_truthy (v : option string) : bool :=
  match v with
  | Some s => negb (String.eqb s "")
  | None => false
  end.

(** [a || b] on two environment variables. *)
Definition env_or (a b : option string) : option string :=
  if env_truthy a then a else b.

Definition startsWith (s p : string) : bool := String.prefix p s.

(** [s.includes(sub)] *)
Fixpoint str_includes (s sub : string) : bool :=
  String.prefix sub s ||
  match s with
  | EmptyString => false
  | String _ s' => str_includes s' sub
  end.

Definition validateEnvironment (isServer : bool) (e : Env) : completion unit :=
  if negb isServer then Normal tt
  else if negb (env_truthy (DATABASE_URL e)) then
    Throw (VError "Missing required env variable: DATABASE_URL")
  else if negb (env_truthy (NODE_ENV e)) then
    Throw (VError "Missing required env variable: NODE_ENV")
  else
    let dbUrl := default "" (DATABASE_URL e) in
    if negb (startsWith dbUrl "postgresql://") && negb (startsWith dbUrl "mysql://")
    then Throw (VError "Invalid DATABASE_URL. Must start with postgresql:// or mysql://")
    else Normal tt.

(** [__internal.engine] of the client options. *)
Record EngineOptions : Type := {
  connectionLimit : nat;
  pool_min : nat;
  pool_max : nat
}.

Record PrismaClientOptions : Type := {
  errorFormat : string;
  datasources_db_url : string;
  __internal : option EngineOptions
}.

Definition createPrismaOptions (databaseUrl : string) : PrismaClientOptions :=
  {| errorFormat := "pretty";
     datasources_db_url := databaseUrl;
     __internal :=
       if str_includes databaseUrl "postgresql://"
       then Some {| connectionLimit := 1; pool_min := 0; pool_max := 1 |}
       else None |}.

(** A client is known by the options it was constructed with. *)
Record PrismaClient : Type := { options_of : PrismaClientOptions }.

(** [globalForPrisma] *)
Record Globals : Type := {
  global_prismaMain : option PrismaClient;
  global_prismaPrimary : option PrismaClient
}.

(** [a ?? b] *)
Definition nullish_or {A} (a : option A) (b : A) : A :=
  match a with Some x => x | None => b end.

(** The non-null assertion [process.env.DATABASE_URL!] changes nothing at run
    time; on the server the validation has made sure the variable is set. *)
Definition prismaMain (isServer : bool) (e : Env) (g : Globals) : option PrismaClient :=
  if isServer then
    Some (nullish_or (global_prismaMain g)
            {| options_of := createPrismaOptions (default "" (DATABASE_URL e)) |})
  else None.

Definition prismaPrimary (isServer : bool) (e : Env) (g : Globals) : option PrismaClient :=
  if isServer then
    Some (nullish_or (global_prismaPrimary g)
            {| options_of :=
                 createPrismaOptions
                   (default "" (env_or (DATABASE_PRIMARY_URL e) (DATABASE_URL e))) |})
  else None.

Definition is_production (e : Env) : bool :=
  match NODE_ENV e with
  | Some mode => String.eqb mode "production"
  | None => false
  end.

(** What loading the module does up to the two clients: validation, the
    clients, and the assignment to [globalForPrisma] outside production. *)
Definition load (isServer : bool) (e : Env) (g : Globals)
  : completion (option PrismaClient * option PrismaClient * Globals) :=
  match validateEnvironment isServer e with
  | Throw error => Throw error
  | Normal _ =>
      let main := prismaMain isServer e g in
      let primary := prismaPrimary isServer e g in
      let g' :=
        if isServer && negb (is_production e)
        then {| global_prismaMain := main; global_prismaPrimary := primary |}
        else g in
      Normal (main, primary, g')
  end.

(** Only a main URL is configured. *)
Definition env_main_only : Env :=
  {| DATABASE_URL := Some "postgresql://db.internal:5432/shop";
     DATABASE_PRIMARY_URL := None;
     NODE_ENV := Some "production" |}.

Definition no_globals : Globals :=
  {| global_prismaMain := None; global_prismaPrimary := None |}.

End Clients.

(** ** Definitions used by the statements *)

(** The keys of a list deleted one after the other. *)
Definition delete_keys (keys : list string) (o : obj) : obj :=
  fold_left (fun acc k => delete_key k acc) keys o.

(** The connection a call goes to and the catch handler, as read off the
    source's branches; the lemma below relates a run to them. *)
Definition routed_to (method : string) (flag : value) : Conn :=
  if isWriteMethod method && truthy flag then Primary else Main.

Definition rethrown (method modelName : string) (r : completion value) : completion value :=
  match r with
  | Throw (VError message) =>
      Throw (VError (message +:+ " (" +:+ context method modelName +:+ ")"))
  | Throw (VReadOnlyError _ refusal) => Throw (VError refusal)
  | _ => r
  end.

(** *** Sample worlds *)

(** A client whose every request succeeds with a promise of [null]. *)
Definition db_ok : world -> event -> completion value :=
  fun _ _ => Normal (VFulfilled VNull).

(** [{ data: { name: "X" }, writeToPrimary: true }] at address 0, its [data]
    at address 1. *)
Definition w_flagged : world :=
  {| heap := [ [("data", VRef 1); ("writeToPrimary", VBool true)];
               [("name", VStr "X")] ];
     trace := [] |}.

(** [{ data: { name: "X" }, writeToPrimary: false }] and its [data]. *)
Definition w_unflagged : world :=
  {| heap := [ [("data", VRef 1); ("writeToPrimary", VBool false)];
               [("name", VStr "X")] ];
     trace := [] |}.

(** A client whose [create] throws [Error("unique violation")] on the spot. *)
Definition db_unique_violation : world -> event -> completion value :=
  fun _ e =>
    match e with
    | EvCall _ _ "create" _ => Throw (VError "unique violation")
    | _ => Normal (VFulfilled VNull)
    end.

(** A client that throws the string ["boom"], which is not an [Error]. *)
Definition db_throws_string : world -> event -> completion value :=
  fun _ _ => Throw (VStr "boom").

(** A client that throws a [DOMException], whose [message] has a getter
    only; the second string is what assigning to it throws. *)
Definition db_aborts : world -> event -> completion value :=
  fun _ _ =>
    Throw (VReadOnlyError "The operation was aborted."
             "Cannot set property message of #<DOMException> which has only a getter").

(** A thrown object [{ message: "connection refused" }] that is not an
    [Error], at address 0. *)
Definition w_error_object : world :=
  {| heap := [ [("message", VStr "connection refused")] ]; trace := [] |}.

(** A client whose [create] returns a promise that rejects with
    [Error("unique violation")]. *)
Definition db_rejects : world -> event -> completion value :=
  fun _ e =>
    match e with
    | EvCall _ _ "create" _ => Normal (VRejected (VError "unique violation"))
    | _ => Normal (VFulfilled VNull)
    end.

(** What [await] makes of the reply to a request. *)
Definition awaited (reply : completion value) : completion value :=
  match reply with
  | Normal (VFulfilled x) => Normal x
  | Normal (VRejected reason) => Throw reason
  | _ => reply
  end.

(** [{ writeToPrimary: true, timeout: 5000, isolationLevel: "Serializable" }]
    at address 0; the batch is the array at address 1. *)
Definition w_tx_primary : world :=
  {| heap := [ [("writeToPrimary", VBool true); ("timeout", VNum 5000);
                ("isolationLevel", VStr "Serializable")];
               [("0", VFulfilled VNull); ("1", VFulfilled VNull)] ];
     trace := [] |}.

Definition w_tx_main : world :=
  {| heap := [ [("writeToPrimary", VBool false); ("timeout", VNum 5000)];
               [("0", VFulfilled VNull); ("1", VFulfilled VNull)] ];
     trace := [] |}.

(** A client whose transactions reject with [Error("deadlock detected")]. *)
Definition db_tx_fails : world -> event -> completion value :=
  fun _ e =>
    match e with
    | EvTransaction _ _ _ => Normal (VRejected (VError "deadlock detected"))
    | _ => Normal (VFulfilled VNull)
    end.

(** A client that can be closed once: a second [$disconnect] on a
    connection throws. *)
Definition db_closes_once : world -> event -> completion value :=
  fun w e =>
    match e with
    | EvDisconnect c =>
        if existsb (fun e' => match e' with
                              | EvDisconnect Main =>
                                  match c with Main => true | Primary => false end
                              | EvDisconnect Primary =>
                                  match c with Main => false | Primary => true end
                              | _ => false
                              end) (trace w)
        then Throw (VError "already disconnected")
        else Normal (VFulfilled VUndefined)
    | _ => Normal (VFulfilled VNull)
    end.

(** ** The search-index client, its route and its service

    [src/util/solr.ts], [app/api/solr/[core]/route.ts] and the [SolrService]
    class.  [fetch], [Buffer] and [URLSearchParams.toString] are the
    platform's: the first is an arbitrary function from requests to replies,
    the other two arbitrary functions on strings.  What the code does is a
    list of entries: the requests it sends and the lines it writes to
    [console.error]. *)

Module Solr.

(** The numbers the pagination computes with: the integers (of a size that
    double arithmetic handles exactly) and what a division by zero gives. *)
Inductive num : Type :=
| Int (z : Z)
| PosInf
| NegInf
| NotANumber.

(** [a / b] rounded by [round] when [b] is not zero. *)
Definition quotient (round : Z -> Z -> Z) (a b : Z) : num :=
  if (b =? 0)%Z then
    if (0 <? a)%Z then PosInf else if (a <? 0)%Z then NegInf else NotANumber
  else Int (round a b).

(** [Math.floor(a / b)] and [Math.ceil(a / b)] *)
Definition floor_div : Z -> Z -> num := quotient Z.div.
Definition ceil_div : Z -> Z -> num := quotient (fun a b => - (- a / b))%Z.

(** [n - 1] *)
Definition minus_one (n : num) : num :=
  match n with
  | Int z => Int (z - 1)
  | _ => n
  end.

(** [a < b] *)
Definition num_lt (a b : num) : bool :=
  match a, b with
  | NotANumber, _ | _, NotANumber => false
  | Int x, Int y => (x <? y)%Z
  | NegInf, NegInf => false
  | NegInf, _ => true
  | _, NegInf => false
  | PosInf, _ => false
  | Int _, PosInf => true
  end.

(** [URLSearchParams.set]: the first pair of that name gets the value and the
    others of that name go; without such a pair, one is appended. *)
Definition remove_name (name : string) (l : list (string * string)) : list (string * string) :=
  List.filter (fun kv => negb (String.eqb name (fst kv))) l.

Fixpoint set (name val : string) (l : list (string * string)) : list (string * string) :=
  match l with
  | [] => [(name, val)]
  | (k, v) :: l' =>
      if String.eqb name k then (name, val) :: remove_name name l'
      else (k, v) :: set name val l'
  end.

(** The first value of a name, as [URLSearchParams.get] gives it. *)
Fixpoint get_param (name : string) (l : list (string * string)) : option string :=
  match l with
  | [] => None
  | (k, v) :: l' => if String.eqb name k then Some v else get_param name l'
  end.

Module Params.
(** The argument of [querySolr]; [enableFacets] and [facets] are read and not
    used, and are left out. *)
Record t : Type := {
  core : string;
  query : option string;
  additionalParams : option (list (string * string));
  pageSize : option Z;
  page : option Z;
  offset : option Z;
  revalidate : option Z;
  tags : option (list string)
}.
End Params.

Module Pagination.
(** [PaginationParams] *)
Record t : Type := { page : option Z; pageSize : option Z }.
End Pagination.

(** [SolrQueryResult] *)
Record SolrQueryResult : Type := {
  docs : list obj;
  total : Z;
  pageSize : Z;
  currentPage : num;
  totalPages : num;
  hasNextPage : bool;
  hasPrevPage : bool
}.

(** [PaginatedResult] *)
Record PaginatedResult : Type := { data : list obj; pagination : SolrQueryResult }.

(** A request: the URL and the [init] object of [fetch]. *)
Record Request : Type := {
  url : string;
  headers : list (string * string);
  next : option (Z * list string);
  cache : option string
}.

(** The [response] member of Solr's reply and the reply, a JSON object. *)
Record SolrResponse : Type := {
  response_docs : option (list obj);
  numFound : option Z
}.
Record Body : Type := { response_member : option SolrResponse }.

(** What [fetch] resolves with; [text] and [json] are what awaiting
    [response.text()] and [response.json()] gives. *)
Record Response : Type := {
  ok : bool;
  status : Z;
  text : completion string;
  json : completion Body
}.

(** What the route handler returns.  [NextResponse.json(o, { status })] has a
    JSON body; [new NextResponse(body, ...)] has the text as its body. *)
Inductive route_body : Type :=
| JsonBody (o : obj)
| TextBody (s : string).
Record RouteResponse : Type := { route_status : Z; body : route_body }.

Inductive entry : Type :=
| Fetched (r : Request)
| ConsoleError (label : string) (detail : value).

(** Completions together with what was done on the way. *)
Definition W (A : Type) : Type := (completion A * list entry)%type.

Definition wret {A} (a : A) : W A := (Normal a, []).
Definition wthrow {A} (e : value) : W A := (Throw e, []).
Definition lift {A} (c : completion A) : W A := (c, []).
Definition tell (e : entry) : W unit := (Normal tt, [e]).

Definition wbind {A B} (m : W A) (k : A -> W B) : W B :=
  match m with
  | (Normal a, done) => let '(r, more) := k a in (r, done ++ more)
  | (Throw e, done) => (Throw e, done)
  end.

Definition wcatch {A} (m : W A) (handler : value -> W A) : W A :=
  match m with
  | (Normal a, done) => (Normal a, done)
  | (Throw e, done) => let '(r, more) := handler e in (r, done ++ more)
  end.

(** The requests among the entries. *)
Fixpoint requests (done : list entry) : list Request :=
  match done with
  | [] => []
  | Fetched r :: done' => r :: requests done'
  | ConsoleError _ _ :: done' => requests done'
  end.

Declare Scope solr_scope.
Notation "'let*' x ':=' m 'in' k" := (wbind m (fun x => k))
  (at level 10, x name, m at level 100, k at level 200) : solr_scope.
Notation "m ';;' k" := (wbind m (fun _ => k))
  (at level 100, k at level 200, right associativity) : solr_scope.
Local Open Scope solr_scope.

(** [v || d] for an optional number: [undefined] and 0 give [d]. *)
Definition number_or (v : option Z) (d : Z) : Z :=
  match v with
  | Some n => if (n =? 0)%Z then d else n
  | None => d
  end.

(** [String(v)] *)
Definition to_String (v : value) : string :=
  match v with
  | VUndefined => "undefined"
  | VNull => "null"
  | VBool true => "true"
  | VBool false => "false"
  | VNum n => pretty n
  | VNaN => "NaN"
  | VStr s => s
  | VRef _ => "[object Object]"
  | VError message | VReadOnlyError message _ =>
      if String.eqb message "" then "Error" else "Error: " +:+ message
  | VFulfilled _ | VRejected _ => "[object Promise]"
  end.

(** [doc.k] *)
Definition field (doc : obj) (k : string) : value :=
  default VUndefined (lookup_key k doc).

Section Client.

(** [process.env] *)
Variables SOLR_URL SOLR_USERNAME SOLR_PASSWORD : option string.

(** [Buffer.from(s).toString('base64')] and [searchParams.toString()] *)
Variable base64 : string -> string.
Variable serialize : list (string * string) -> string.

Variable fetch : Request -> completion Response.

(** [typeof window === 'undefined'] *)
Variable isServer : bool.

(** The objects that thrown references point to. *)
Variable objects : store.

(** What [new NextResponse(body, { status })] throws for a status it does not
    accept with a body, if it throws. *)
Variable construction_error : Z -> option value.

(** [`${v}`] for an environment variable. *)
Definition template (v : option string) : string := default "undefined" v.

Definition getAuthHeader : completion string :=
  if negb (Clients.env_truthy SOLR_USERNAME) || negb (Clients.env_truthy SOLR_PASSWORD)
  then Throw (VError "Solr credentials are not configured")
  else Normal ("Basic " +:+
               base64 (template SOLR_USERNAME +:+ ":" +:+ template SOLR_PASSWORD)).

Definition do_fetch (r : Request) : W Response := (fetch r, [Fetched r]).

(** The search parameters [querySolr] builds, [additionalParams] last. *)
Definition searchParams (query : string) (pageSize startOffset : Z)
    (additionalParams : list (string * string)) : list (string * string) :=
  let sp := set "q" query [] in
  let sp := set "rows" (pretty pageSize) sp in
  let sp := set "wt" "json" sp in
  let sp := set "start" (pretty startOffset) sp in
  fold_left (fun sp kv => set (fst kv) (snd kv) sp) additionalParams sp.

(** [error.message], which throws on [undefined] and [null]. *)
Definition message_of (error : value) : completion value :=
  match error with
  | VUndefined =>
      Throw (VError "Cannot read properties of undefined (reading 'message')")
  | VNull =>
      Throw (VError "Cannot read properties of null (reading 'message')")
  | VError message | VReadOnlyError message _ => Normal (VStr message)
  | _ => Normal (get_prop objects error "message")
  end.

(** [error.message || error] *)
Definition message_or_error (error : value) : completion value :=
  match message_of error with
  | Normal message => Normal (if truthy message then message else error)
  | Throw e => Throw e
  end.

Definition querySolr (params : Params.t) : W SolrQueryResult :=
  let core := Params.core params in
  let query := default "*:*" (Params.query params) in
  let additionalParams := default [] (Params.additionalParams params) in
  let pageSize := default 20%Z (Params.pageSize params) in
  let page := default 1%Z (Params.page params) in
  let offset := Params.offset params in
  let revalidate := default 3600%Z (Params.revalidate params) in
  let tags := default ["solr"] (Params.tags params) in
  if String.eqb core "" then wthrow (VError "Solr core is required")
  else
    let startOffset :=
      match offset with
      | Some o => o
      | None => ((page - 1) * pageSize)%Z
      end in
    let sp := searchParams query pageSize startOffset additionalParams in
    let solrUrl :=
      if isServer
      then template SOLR_URL +:+ "/" +:+ core +:+ "/select?" +:+ serialize sp
      else "/api/solr/" +:+ core +:+ "?" +:+ serialize sp in
    wcatch
      (let* fetchInit :=
         (if isServer then
            let* authorization := lift getAuthHeader in
            wret {| url := solrUrl;
                    headers := [("Authorization", authorization);
                                ("Content-Type", "application/json")];
                    next := Some (revalidate, tags);
                    cache := None |}
          else
            wret {| url := solrUrl;
                    headers := [("Content-Type", "application/json")];
                    next := None;
                    cache := None |}) in
       let* response := do_fetch fetchInit in
       if negb (ok response) then
         let* errorText := lift (text response) in
         tell (ConsoleError "Solr error response:" (VStr errorText)) ;;
         wthrow (VError ("Solr request failed with status " +:+
                         pretty (status response) +:+
                         ". Check console for full error."))
       else
         let* result := lift (json response) in
         let docs :=
           match response_member result with
           | Some r => default [] (response_docs r)
           | None => []
           end in
         let total :=
           match response_member result with
           | Some r => number_or (numFound r) 0
           | None => 0%Z
           end in
         let totalPages := ceil_div total pageSize in
         let currentPage := floor_div startOffset pageSize in
         wret {| docs := docs;
                 total := total;
                 pageSize := pageSize;
                 currentPage := currentPage;
                 totalPages := totalPages;
                 hasNextPage := num_lt currentPage (minus_one totalPages);
                 hasPrevPage := num_lt (Int 0) currentPage |})
      (fun error =>
         let* detail := lift (message_or_error error) in
         tell (ConsoleError "Fetch Solr failed:" detail) ;;
         wthrow error).

(** [SolrService.getProductGroups]; [null] is [None]. *)
Definition toProductGroup (doc : obj) : obj :=
  [ ("id", field doc "id");
    ("name", field doc "name_s");
    ("slug", field doc "slug_s");
    ("iconUrl", field doc "icon_url_s");
    ("isActive", field doc "is_active_b");
    ("displayOrder", field doc "display_order_i");
    ("discountPercent", field doc "discount_percent_d");
    ("isWithAllProduct", field doc "is_with_all_product_b") ].

Definition groups_query (params : option Pagination.t) : Params.t :=
  {| Params.core := "product_groups";
     Params.query := Some "*:*";
     Params.additionalParams := None;
     Params.pageSize :=
       Some (number_or (match params with
                        | Some p => Pagination.pageSize p
                        | None => None
                        end) 10);
     Params.page :=
       Some (number_or (match params with
                        | Some p => Pagination.page p
                        | None => None
                        end) 1);
     Params.offset := None;
     Params.revalidate := None;
     Params.tags := None |}.

Definition getProductGroups (params : option Pagination.t) : W (option PaginatedResult) :=
  wcatch
    (let* result := querySolr (groups_query params) in
     wret (Some {| data := map toProductGroup (docs result);
                   pagination := result |}))
    (fun error =>
       tell (ConsoleError "Error fetching product groups:" error) ;;
       wret None).

(** [e?.message || String(e)] *)
Definition details_of (e : value) : value :=
  let message :=
    match e with
    | VUndefined | VNull => VUndefined
    | VError message | VReadOnlyError message _ => VStr message
    | _ => get_prop objects e "message"
    end in
  if truthy message then message else VStr (to_String e).

(** The route handler [GET], for the [core] of the path and the query string
    of the request as [req.nextUrl.searchParams.toString()] gives it. *)
Definition GET (core queryString : string) : W RouteResponse :=
  if negb (Clients.env_truthy SOLR_URL) ||
     negb (Clients.env_truthy SOLR_USERNAME) ||
     negb (Clients.env_truthy SOLR_PASSWORD)
  then
    wret {| route_status := 500;
            body := JsonBody
                      [("error", VStr "Solr environment variables are not configured")] |}
  else if String.eqb core "" then
    wret {| route_status := 400;
            body := JsonBody [("error", VStr "Core is required")] |}
  else
    let solrEndpoint :=
      template SOLR_URL +:+ "/" +:+ core +:+ "/select?" +:+ queryString in
    let auth := base64 (template SOLR_USERNAME +:+ ":" +:+ template SOLR_PASSWORD) in
    wcatch
      (let* resp :=
         do_fetch {| url := solrEndpoint;
                     headers := [("Authorization", "Basic " +:+ auth);
                                 ("Content-Type", "application/json")];
                     next := None;
                     cache := Some "no-store" |} in
       let* bodyText := lift (text resp) in
       match construction_error (status resp) with
       | Some e => wthrow e
       | None => wret {| route_status := status resp; body := TextBody bodyText |}
       end)
      (fun e =>
         wret {| route_status := 502;
                 body := JsonBody [("error", VStr "Failed to reach Solr");
                                   ("details", details_of e)] |}).

End Client.

End Solr.

(** ** The countdown's time parts *)

Module Countdown.

Definition msInSecond : Z := 1000.
Definition msInMinute : Z := 60 * 1000.
Definition msInAHour : Z := 60 * msInMinute.
Definition msInADay : Z := 24 * msInAHour.

Record parts : Type := { days : Z; hours : Z; minutes : Z; seconds : Z }.

(** For an integer number of milliseconds: [Math.floor(a / b)] is [a / b]
    for the positive [b] used here, and [%] is the remainder with the sign of
    the dividend. *)
Definition getPartsofTimeDuration (duration : Z) : parts :=
  {| days := duration / msInADay;
     hours := Z.rem duration msInADay / msInAHour;
     minutes := Z.rem duration msInAHour / msInMinute;
     seconds := Z.rem duration msInMinute / msInSecond |}.

End Countdown.

(** ** Signal handlers *)

Section Shutdown.

Variable db : world -> event -> completion value.
Variable isServer : bool.

(** The handler [shutdown] that [setupGracefulShutdown] installs for
    [SIGINT] and [SIGTERM]; its result is the code given to
    [process.exit]. *)
Definition shutdown (signal : string) : M Z :=
  emit (EvLog ("Received " +:+ signal +:+ ", shutting down gracefully...")) ;;
  disconnectPrisma db isServer ;;
  ret 0%Z.

End Shutdown.

(** ** Sample environments and runs *)

(** An environment for a development server. *)
Definition env_dev : Clients.Env :=
  {| Clients.DATABASE_URL := Some "postgresql://localhost:5432/shop";
     Clients.DATABASE_PRIMARY_URL := Some "postgresql://localhost:6432/shop";
     Clients.NODE_ENV := Some "development" |}.

(** The same server after its URLs were edited. *)
Definition env_dev_edited : Clients.Env :=
  {| Clients.DATABASE_URL := Some "mysql://elsewhere/shop";
     Clients.DATABASE_PRIMARY_URL := None;
     Clients.NODE_ENV := Some "development" |}.

(** Whether a reply to [$disconnect] is a success: it neither throws nor is
    a promise that rejects. *)
Definition closes (reply : completion value) : bool :=
  match reply with
  | Normal (VRejected _) | Throw _ => false
  | Normal _ => true
  end.

(** Parameters joined with [&] and [=], nothing escaped. *)
Definition plain_serialize (l : list (string * string)) : string :=
  String.concat "&" (map (fun kv => fst kv +:+ "=" +:+ snd kv) l).

(** A Solr that has 45 documents and returns two of them. *)
Definition fetch_45 : Solr.Request -> completion Solr.Response :=
  fun _ =>
    Normal {| Solr.ok := true;
              Solr.status := 200;
              Solr.text := Normal "{}";
              Solr.json :=
                Normal {| Solr.response_member :=
                            Some {| Solr.response_docs :=
                                      Some [ [("id", VStr "g1"); ("name_s", VStr "Fruit")];
                                             [("id", VStr "g2"); ("name_s", VStr "Dairy")] ];
                                    Solr.numFound := Some 45%Z |} |} |}.

(** A Solr that answers 503. *)
Definition fetch_503 : Solr.Request -> completion Solr.Response :=
  fun _ =>
    Normal {| Solr.ok := false;
              Solr.status := 503;
              Solr.text := Normal "Service Unavailable";
              Solr.json := Throw (VError "Unexpected token S in JSON") |}.

Definition page_2_of_20 : Solr.Params.t :=
  {| Solr.Params.core := "product_groups";
     Solr.Params.query := None;
     Solr.Params.additionalParams := None;
     Solr.Params.pageSize := Some 20%Z;
     Solr.Params.page := Some 2%Z;
     Solr.Params.offset := None;
     Solr.Params.revalidate := None;
     Solr.Params.tags := None |}.

Definition offset_25_of_20 : Solr.Params.t :=
  {| Solr.Params.core := "product_groups";
     Solr.Params.query := None;
     Solr.Params.additionalParams := None;
     Solr.Params.pageSize := Some 20%Z;
     Solr.Params.page := Some 7%Z;
     Solr.Params.offset := Some 25%Z;
     Solr.Params.revalidate := None;
     Solr.Params.tags := None |}.

Definition page_of_0 : Solr.Params.t :=
  {| Solr.Params.core := "product_groups";
     Solr.Params.query := None;
     Solr.Params.additionalParams := None;
     Solr.Params.pageSize := Some 0%Z;
     Solr.Params.page := Some 3%Z;
     Solr.Params.offset := None;
     Solr.Params.revalidate := None;
     Solr.Params.tags := None |}.

(** [querySolr] on a configured server. *)
Definition querySolr_on_server (fetch : Solr.Request -> completion Solr.Response) :=
  Solr.querySolr (Some "http://solr:8983/solr") (Some "reader") (Some "secret")
    (fun s => s) plain_serialize fetch true [].

Definition result_page_2 : Solr.SolrQueryResult :=
  {| Solr.docs := [ [("id", VStr "g1"); ("name_s", VStr "Fruit")];
                    [("id", VStr "g2"); ("name_s", VStr "Dairy")] ];
     Solr.total := 45;
     Solr.pageSize := 20;
     Solr.currentPage := Solr.Int 1;
     Solr.totalPages := Solr.Int 3;
     Solr.hasNextPage := true;
     Solr.hasPrevPage := true |}.

Definition result_page_of_0 : Solr.SolrQueryResult :=
  {| Solr.docs := [ [("id", VStr "g1"); ("name_s", VStr "Fruit")];
                    [("id", VStr "g2"); ("name_s", VStr "Dairy")] ];
     Solr.total := 45;
     Solr.pageSize := 0;
     Solr.currentPage := Solr.NotANumber;
     Solr.totalPages := Solr.PosInf;
     Solr.hasNextPage := false;
     Solr.hasPrevPage := false |}.

Definition request_page_2 : Solr.Request :=
  {| Solr.url :=
       "http://solr:8983/solr/product_groups/select?q=*:*&rows=20&wt=json&start=20";
     Solr.headers := [("Authorization", "Basic reader:secret");
                      ("Content-Type", "application/json")];
     Solr.next := Some (3600%Z, ["solr"]);
     Solr.cache := None |}.

Definition groups_page_0_size_0 : option Solr.Pagination.t :=
  Some {| Solr.Pagination.page := Some 0%Z; Solr.Pagination.pageSize := Some 0%Z |}.

Definition groups_first_ten : Solr.PaginatedResult :=
  {| Solr.data :=
       [ [("id", VStr "g1"); ("name", VStr "Fruit"); ("slug", VUndefined);
          ("iconUrl", VUndefined); ("isActive", VUndefined);
          ("displayOrder", VUndefined); ("discountPercent", VUndefined);
          ("isWithAllProduct", VUndefined)];
         [("id", VStr "g2"); ("name", VStr "Dairy"); ("slug", VUndefined);
          ("iconUrl", VUndefined); ("isActive", VUndefined);
          ("displayOrder", VUndefined); ("discountPercent", VUndefined);
          ("isWithAllProduct", VUndefined)] ];
     Solr.pagination :=
       {| Solr.docs := [ [("id", VStr "g1"); ("name_s", VStr "Fruit")];
                         [("id", VStr "g2"); ("name_s", VStr "Dairy")] ];
          Solr.total := 45;
          Solr.pageSize := 10;
          Solr.currentPage := Solr.Int 0;
          Solr.totalPages := Solr.Int 5;
          Solr.hasNextPage := true;
          Solr.hasPrevPage := false |} |}.

(** ** Properties *)

(** C4. [isWriteMethod] answers true for exactly the seven method names
    create, update, delete, upsert, createMany, updateMany and deleteMany,
    and false for every other name. *)
Theorem isWriteMethod_exactly_seven (method : string) :
  isWriteMethod method = true <->
  (method = "create" \/ method = "update" \/ method = "delete" \/
   method = "upsert" \/ method = "createMany" \/ method = "updateMany" \/
   method = "deleteMany").
Proof.
  unfold isWriteMethod, WRITE_METHODS; cbn [includes].
  rewrite !orb_true_iff, !String.eqb_eq.
  intuition (subst; auto; discriminate).
Qed.

Example findMany_is_read : isWriteMethod "findMany" = false.
Proof. reflexivity. Qed.

Example names_are_case_sensitive : isWriteMethod "Create" = false.
Proof. reflexivity. Qed.

(** *** Objects *)

Lemma has_key_delete_key (k : string) (o : obj) :
  has_key k (delete_key k o) = false.
Proof.
  unfold has_key.
  induction o as [|[k' v] o IH]; cbn; [reflexivity|].
  destruct (String.eqb k k') eqn:E; [exact IH|].
  cbn. rewrite E. exact IH.
Qed.

Lemma lookup_key_delete_other (k k' : string) (o : obj) :
  k <> k' -> lookup_key k' (delete_key k o) = lookup_key k' o.
Proof.
  intros Hne.
  induction o as [|[k0 v] o IH]; cbn; [reflexivity|].
  destruct (String.eqb k k0) eqn:E.
  - apply String.eqb_eq in E. subst k0.
    destruct (String.eqb k' k) eqn:E'; [|exact IH].
    apply String.eqb_eq in E'. congruence.
  - cbn. rewrite IH. reflexivity.
Qed.

(** *** Strings *)

Lemma append_assoc (a b c : string) : (a +:+ b) +:+ c = a +:+ (b +:+ c).
Proof.
  induction a as [|x a IH]; [reflexivity|].
  change (String x ((a +:+ b) +:+ c) = String x (a +:+ (b +:+ c))).
  rewrite IH. reflexivity.
Qed.

Lemma context_in_parentheses (methodName modelName : string) :
  " (" +:+ context methodName modelName +:+ ")" =
  " (Method: " +:+ methodName +:+ ", Model: " +:+ modelName +:+ ")".
Proof.
  unfold context. rewrite !append_assoc. reflexivity.
Qed.

(** *** cleanOptions works on a copy *)

Lemma delete_each_last (keys : list string) (h : store) (o : obj) (t : list event) :
  delete_each (VRef (List.length h)) keys {| heap := h ++ [o]; trace := t |} =
  (Normal tt, {| heap := h ++ [delete_keys keys o]; trace := t |}).
Proof.
  revert o.
  induction keys as [|k keys IH]; intros o; [reflexivity|].
  cbn [delete_each]. unfold bind, delete_prop. cbn [heap trace].
  rewrite list_lookup_middle by reflexivity.
  rewrite insert_app_r_alt by reflexivity.
  rewrite Nat.sub_diag. cbn.
  apply IH.
Qed.

Lemma cleanOptions_run (args : value) (keys : list string) (w : world) :
  cleanOptions args keys w =
  (Normal (VRef (List.length (heap w))),
   {| heap := heap w ++ [delete_keys keys (own_props (heap w) args)];
      trace := trace w |}).
Proof.
  destruct w as [h t].
  unfold cleanOptions, bind, props_of, alloc; cbn.
  rewrite delete_each_last. reflexivity.
Qed.

Lemma own_props_last (h : store) (o : obj) :
  own_props (h ++ [o]) (VRef (List.length h)) = o.
Proof.
  cbn. rewrite list_lookup_middle by reflexivity. reflexivity.
Qed.

(** *** One run of the method proxy *)

Section Runs.

Variable db : world -> event -> completion value.

Lemma write_run (modelName method : string) (args : value) (w : world) :
  isWriteMethod method = true ->
  let h1 := match args with VUndefined => heap w ++ [[]] | _ => heap w end in
  let cleaned := VRef (List.length h1) in
  let h2 := h1 ++ [delete_key "writeToPrimary" (own_props (heap w) args)] in
  let ev := EvCall (routed_to method (get_prop (heap w) args "writeToPrimary"))
                   modelName method cleaned in
  createMethodProxy db modelName method args w =
  (rethrown method modelName (db {| heap := h2; trace := trace w |} ev),
   {| heap := h2; trace := trace w ++ [ev] |}).
Proof.
  intros Hw. destruct w as [h t]. cbn [heap trace].
  unfold routed_to. rewrite Hw. cbn [andb].
  assert (Hcase : args = VUndefined \/ args <> VUndefined)
    by (destruct args; first [left; reflexivity | right; discriminate]).
  destruct Hcase as [->|Hdef].
  - unfold createMethodProxy. rewrite Hw.
    unfold bind at 1. unfold default_args, alloc. cbn [heap trace].
    unfold try_catch, bind at 1, get. cbn [heap trace].
    unfold get_prop at 1. rewrite own_props_last.
    cbn [lookup_key default truthy own_props get_prop].
    unfold bind. rewrite cleanOptions_run. cbn [heap trace].
    rewrite own_props_last.
    unfold request; cbn [heap trace delete_keys fold_left delete_key].
    destruct (db _ _) as [v|[]]; reflexivity.
  - assert (Hd : default_args args = ret args) by (destruct args; first [reflexivity | congruence]).
    assert (Hh : match args with VUndefined => h ++ [[]] | _ => h end = h)
      by (destruct args; first [reflexivity | congruence]).
    rewrite Hh.
    unfold createMethodProxy. rewrite Hw, Hd.
    unfold bind at 1, ret. unfold try_catch, bind at 1, get. cbn [heap trace].
    destruct (truthy (get_prop h args "writeToPrimary"));
      unfold bind; rewrite cleanOptions_run; cbn [heap trace];
      unfold request; cbn [heap trace delete_keys fold_left];
      destruct (db _ _) as [v|[]]; reflexivity.
Qed.

Lemma read_run (modelName method : string) (args : value) (w : world) :
  isWriteMethod method = false ->
  let h1 := match args with VUndefined => heap w ++ [[]] | _ => heap w end in
  let arg := match args with VUndefined => VRef (List.length (heap w)) | _ => args end in
  let ev := EvCall Main modelName method arg in
  createMethodProxy db modelName method args w =
  (rethrown method modelName (db {| heap := h1; trace := trace w |} ev),
   {| heap := h1; trace := trace w ++ [ev] |}).
Proof.
  intros Hr. destruct w as [h t]. cbn [heap trace].
  unfold createMethodProxy. rewrite Hr.
  unfold bind, try_catch, default_args, alloc, ret, request.
  destruct args; cbn [heap trace];
    destruct (db _ _) as [v|[]]; reflexivity.
Qed.

End Runs.

(** *** Routing of entity method calls *)

(** C1. A write call whose argument bag has [writeToPrimary] set to true (or
    to any other truthy value: the source tests truthiness) is forwarded to
    the primary connection, to the same entity and method, exactly once; the
    forwarded argument object is the caller's bag without the
    [writeToPrimary] key, and a value the primary returns is returned. *)
Theorem write_with_flag_reaches_primary
    (db : world -> event -> completion value)
    (modelName method : string) (args : value) (w : world) :
  isWriteMethod method = true ->
  truthy (get_prop (heap w) args "writeToPrimary") = true ->
  exists cleaned r w',
    createMethodProxy db modelName method args w = (r, w') /\
    trace w' = trace w ++ [EvCall Primary modelName method cleaned] /\
    has_key "writeToPrimary" (own_props (heap w') cleaned) = false /\
    own_props (heap w') cleaned =
      delete_key "writeToPrimary" (own_props (heap w) args) /\
    (forall v,
        db {| heap := heap w'; trace := trace w |}
           (EvCall Primary modelName method cleaned) = Normal v ->
        r = Normal v).
Proof.
  intros Hw Hflag.
  pose proof (write_run db modelName method args w Hw) as Hrun.
  cbv zeta in Hrun. unfold routed_to in Hrun.
  rewrite Hw, Hflag in Hrun. cbn [andb] in Hrun.
  eexists _, _, _. split; [exact Hrun|]. cbn [heap trace].
  split; [reflexivity|].
  rewrite own_props_last.
  split; [apply has_key_delete_key|].
  split; [reflexivity|].
  intros v Hv. rewrite Hv. reflexivity.
Qed.

Lemma write_with_flag_reaches_primary_witness :
  exists cleaned r w',
    createMethodProxy db_ok "product" "create" (VRef 0) w_flagged = (r, w') /\
    trace w' = trace w_flagged ++ [EvCall Primary "product" "create" cleaned] /\
    has_key "writeToPrimary" (own_props (heap w') cleaned) = false /\
    own_props (heap w') cleaned =
      delete_key "writeToPrimary" (own_props (heap w_flagged) (VRef 0)) /\
    (forall v,
        db_ok {| heap := heap w'; trace := trace w_flagged |}
              (EvCall Primary "product" "create" cleaned) = Normal v ->
        r = Normal v).
Proof.
  apply (write_with_flag_reaches_primary db_ok "product" "create" (VRef 0) w_flagged);
    reflexivity.
Defined.

(** The scenario of the specification: [create] on [product] with
    [{ data: { name: "X" }, writeToPrimary: true }] reaches the primary with
    [{ data: { name: "X" } }]. *)
Example create_product_on_primary :
  createMethodProxy db_ok "product" "create" (VRef 0) w_flagged =
  (Normal (VFulfilled VNull),
   {| heap := heap w_flagged ++ [ [("data", VRef 1)] ];
      trace := [EvCall Primary "product" "create" (VRef 2)] |}).
Proof. reflexivity. Qed.

(** C2. A call that is not a write with the routing flag set (a write whose
    flag is absent, false or otherwise falsy, or any read) makes exactly one
    request, to the main connection, and none to the primary.  A write is
    forwarded with a copy of the bag from which the flag is removed: the
    forwarded object does not have the [writeToPrimary] key and has every
    other key with the value the caller gave.  A read is forwarded with the
    caller's argument itself, whatever flag it carries (with a new empty
    object when the argument is [undefined]). *)
Theorem other_calls_reach_main_only
    (db : world -> event -> completion value)
    (modelName method : string) (args : value) (w : world) :
  isWriteMethod method && truthy (get_prop (heap w) args "writeToPrimary") = false ->
  exists arg r w',
    createMethodProxy db modelName method args w = (r, w') /\
    trace w' = trace w ++ [EvCall Main modelName method arg] /\
    (isWriteMethod method = true ->
       has_key "writeToPrimary" (own_props (heap w') arg) = false /\
       (forall k, k <> "writeToPrimary" ->
          lookup_key k (own_props (heap w') arg) =
          lookup_key k (own_props (heap w) args)) /\
       own_props (heap w') arg =
         delete_key "writeToPrimary" (own_props (heap w) args)) /\
    (isWriteMethod method = false ->
       own_props (heap w') arg = own_props (heap w) args /\
       (args <> VUndefined -> arg = args /\ heap w' = heap w)).
Proof.
  intros Hnot.
  destruct (isWriteMethod method) eqn:Hw.
  - cbn [andb] in Hnot.
    pose proof (write_run db modelName method args w Hw) as Hrun.
    cbv zeta in Hrun. unfold routed_to in Hrun.
    rewrite Hw, Hnot in Hrun. cbn [andb] in Hrun.
    eexists _, _, _. split; [exact Hrun|]. cbn [heap trace].
    split; [reflexivity|].
    split; [intros _ | discriminate].
    rewrite own_props_last.
    split; [apply has_key_delete_key|].
    split; [|reflexivity].
    intros k Hk. apply lookup_key_delete_other. congruence.
  - pose proof (read_run db modelName method args w Hw) as Hrun.
    cbv zeta in Hrun.
    eexists _, _, _. split; [exact Hrun|]. cbn [heap trace].
    split; [reflexivity|].
    split; [discriminate|]. intros _.
    destruct args; try (split; [reflexivity | intros _; split; reflexivity]).
    split; [apply own_props_last | congruence].
Qed.

Lemma other_calls_reach_main_only_witness :
  exists arg r w',
    createMethodProxy db_ok "product" "create" (VRef 0) w_unflagged = (r, w') /\
    trace w' = trace w_unflagged ++ [EvCall Main "product" "create" arg] /\
    (isWriteMethod "create" = true ->
       has_key "writeToPrimary" (own_props (heap w') arg) = false /\
       (forall k, k <> "writeToPrimary" ->
          lookup_key k (own_props (heap w') arg) =
          lookup_key k (own_props (heap w_unflagged) (VRef 0))) /\
       own_props (heap w') arg =
         delete_key "writeToPrimary" (own_props (heap w_unflagged) (VRef 0))) /\
    (isWriteMethod "create" = false ->
       own_props (heap w') arg = own_props (heap w_unflagged) (VRef 0) /\
       (VRef 0 <> VUndefined -> arg = VRef 0 /\ heap w' = heap w_unflagged)).
Proof.
  apply (other_calls_reach_main_only db_ok "product" "create" (VRef 0) w_unflagged).
  reflexivity.
Defined.

(** The three ways not to be a write with the flag set. *)
Example create_unflagged_on_main :
  createMethodProxy db_ok "product" "create" (VRef 0) w_unflagged =
  (Normal (VFulfilled VNull),
   {| heap := heap w_unflagged ++ [ [("data", VRef 1)] ];
      trace := [EvCall Main "product" "create" (VRef 2)] |}).
Proof. reflexivity. Qed.

Example create_without_argument_on_main :
  createMethodProxy db_ok "product" "create" VUndefined {| heap := []; trace := [] |} =
  (Normal (VFulfilled VNull),
   {| heap := [ []; [] ];
      trace := [EvCall Main "product" "create" (VRef 1)] |}).
Proof. reflexivity. Qed.

Example findMany_flagged_on_main :
  createMethodProxy db_ok "product" "findMany" (VRef 0) w_flagged =
  (Normal (VFulfilled VNull),
   {| heap := heap w_flagged;
      trace := [EvCall Main "product" "findMany" (VRef 0)] |}).
Proof. reflexivity. Qed.

(** The flag is tested for truthiness: a write whose flag is the number 1
    goes to the primary, one whose flag is 0 to the main connection. *)
Example create_flag_one_on_primary :
  trace (snd (createMethodProxy db_ok "product" "create" (VRef 0)
                {| heap := [ [("writeToPrimary", VNum 1)] ]; trace := [] |})) =
  [EvCall Primary "product" "create" (VRef 1)].
Proof. reflexivity. Qed.

Example create_flag_zero_on_main :
  trace (snd (createMethodProxy db_ok "product" "create" (VRef 0)
                {| heap := [ [("writeToPrimary", VNum 0)] ]; trace := [] |})) =
  [EvCall Main "product" "create" (VRef 1)].
Proof. reflexivity. Qed.

(** C3, as stated, fails on a read: [findMany] called with
    [{ data: ..., writeToPrimary: true }] is forwarded to the main connection
    with that very object, which still has the [writeToPrimary] key. *)
Lemma read_forwards_flag_counterexample :
  exists r w',
    createMethodProxy db_ok "product" "findMany" (VRef 0) w_flagged = (r, w') /\
    trace w' = [EvCall Main "product" "findMany" (VRef 0)] /\
    has_key "writeToPrimary" (own_props (heap w') (VRef 0)) = true.
Proof. eexists _, _. repeat split. Qed.

(** C3, amended. Every invocation makes exactly one request; for a write the
    forwarded argument object never has the [writeToPrimary] key, and for a
    read it has the key exactly when the caller's argument has it. *)
Theorem forwarded_flag_only_on_reads
    (db : world -> event -> completion value)
    (modelName method : string) (args : value) (w : world) :
  exists c arg r w',
    createMethodProxy db modelName method args w = (r, w') /\
    trace w' = trace w ++ [EvCall c modelName method arg] /\
    has_key "writeToPrimary" (own_props (heap w') arg) =
      negb (isWriteMethod method) &&
      has_key "writeToPrimary" (own_props (heap w) args).
Proof.
  destruct (isWriteMethod method) eqn:Hw.
  - pose proof (write_run db modelName method args w Hw) as Hrun.
    cbv zeta in Hrun.
    eexists _, _, _, _. split; [exact Hrun|]. cbn [heap trace negb andb].
    split; [reflexivity|].
    rewrite own_props_last. apply has_key_delete_key.
  - pose proof (read_run db modelName method args w Hw) as Hrun.
    cbv zeta in Hrun.
    eexists _, _, _, _. split; [exact Hrun|]. cbn [heap trace negb andb].
    split; [reflexivity|].
    destruct args; try reflexivity.
    rewrite own_props_last. reflexivity.
Qed.

(** *** Errors of the forwarded call *)

(** What the handler makes of a value the forwarded call throws on the spot.
    An [Error] whose message can be assigned is thrown again with
    [" (Method: <method>, Model: <entity>)"] appended to its message.  For an
    [Error] whose message cannot be assigned the assignment itself throws, so
    the caller gets that [TypeError] and not the error of the call.  Any
    other thrown value is thrown again as it is. *)
Lemma thrown_value_through_handler
    (db : world -> event -> completion value)
    (modelName method : string) (args : value) (w : world) :
  exists c arg w',
    snd (createMethodProxy db modelName method args w) = w' /\
    trace w' = trace w ++ [EvCall c modelName method arg] /\
    match db {| heap := heap w'; trace := trace w |}
             (EvCall c modelName method arg) with
    | Normal _ => True
    | Throw (VError message) =>
        fst (createMethodProxy db modelName method args w) =
        Throw (VError (message +:+ " (Method: " +:+ method +:+
                       ", Model: " +:+ modelName +:+ ")"))
    | Throw (VReadOnlyError _ refusal) =>
        fst (createMethodProxy db modelName method args w) = Throw (VError refusal)
    | Throw e =>
        fst (createMethodProxy db modelName method args w) = Throw e
    end.
Proof.
  destruct (isWriteMethod method) eqn:Hw.
  - pose proof (write_run db modelName method args w Hw) as Hrun.
    cbv zeta in Hrun. rewrite Hrun. cbn [fst snd].
    eexists _, _, _. split; [reflexivity|]. cbn [heap trace].
    split; [reflexivity|].
    destruct (db _ _) as [v|[]]; try reflexivity.
    cbn [rethrown]. rewrite context_in_parentheses. reflexivity.
  - pose proof (read_run db modelName method args w Hw) as Hrun.
    cbv zeta in Hrun. rewrite Hrun. cbn [fst snd].
    eexists _, _, _. split; [reflexivity|]. cbn [heap trace].
    split; [reflexivity|].
    destruct (db _ _) as [v|[]]; try reflexivity.
    cbn [rethrown]. rewrite context_in_parentheses. reflexivity.
Qed.

(** The scenario of the specification, with an error thrown on the spot. *)
Example unique_violation_thrown :
  fst (createMethodProxy db_unique_violation "product" "create" (VRef 0) w_unflagged) =
  Throw (VError "unique violation (Method: create, Model: product)").
Proof. reflexivity. Qed.

(** A thrown string is not an [Error]: it reaches the caller as it is. *)
Example thrown_string_rethrown :
  fst (createMethodProxy db_throws_string "product" "create" (VRef 0) w_unflagged) =
  Throw (VStr "boom").
Proof. reflexivity. Qed.

(** An error whose message cannot be assigned is lost: the caller gets the
    [TypeError] of the assignment. *)
Example read_only_error_lost :
  fst (createMethodProxy db_aborts "product" "create" (VRef 0) w_unflagged) =
  Throw (VError "Cannot set property message of #<DOMException> which has only a getter").
Proof. reflexivity. Qed.

(** C6. The code at the failing input.  The main connection's [create] on
    [product] returns a promise that rejects with [Error("unique
    violation")], as the methods of the client do.  The function the proxy
    returns has no [await], so its handler never sees the rejection: the
    caller is handed the promise as it is, and awaiting it throws the error
    with the message ["unique violation"], to which nothing naming the
    method or the entity was appended. *)
Theorem rejection_reaches_caller_without_context :
  createMethodProxy db_rejects "product" "create" (VRef 0) w_unflagged =
    (Normal (VRejected (VError "unique violation")),
     {| heap := heap w_unflagged ++ [ [("data", VRef 1)] ];
        trace := [EvCall Main "product" "create" (VRef 2)] |}) /\
  fst (bind (createMethodProxy db_rejects "product" "create" (VRef 0)) await
         w_unflagged) =
    Throw (VError "unique violation").
Proof. split; reflexivity. Qed.

(** *** The caller's argument object *)

(** Every run leaves the objects that were in the store as they were. *)
Lemma createMethodProxy_preserves_store
    (db : world -> event -> completion value)
    (modelName method : string) (args : value) (w : world) (l : loc) (o : obj) :
  heap w !! l = Some o ->
  heap (snd (createMethodProxy db modelName method args w)) !! l = Some o.
Proof.
  intros Hl.
  destruct (isWriteMethod method) eqn:Hw.
  - pose proof (write_run db modelName method args w Hw) as Hrun.
    cbv zeta in Hrun. rewrite Hrun. cbn [snd heap].
    apply lookup_app_l_Some.
    destruct args; try exact Hl. apply lookup_app_l_Some. exact Hl.
  - pose proof (read_run db modelName method args w Hw) as Hrun.
    cbv zeta in Hrun. rewrite Hrun. cbn [snd heap].
    destruct args; try exact Hl. apply lookup_app_l_Some. exact Hl.
Qed.

(** C10. The method proxy does not mutate the caller's argument object: for
    every call, write or read, however it completes, the object the caller
    passed has afterwards the properties it had before, in particular every
    key it had, [writeToPrimary] included. *)
Theorem caller_argument_unchanged
    (db : world -> event -> completion value)
    (modelName method : string) (a : loc) (o : obj) (w : world) :
  heap w !! a = Some o ->
  let w' := snd (createMethodProxy db modelName method (VRef a) w) in
  heap w' !! a = Some o /\
  own_props (heap w') (VRef a) = own_props (heap w) (VRef a) /\
  (forall k, has_key k (own_props (heap w') (VRef a)) = has_key k o).
Proof.
  intros Ha w'.
  pose proof (createMethodProxy_preserves_store db modelName method (VRef a) w a o Ha) as H'.
  fold w' in H'.
  split; [exact H'|].
  unfold own_props. rewrite H', Ha. cbn [default].
  split; [reflexivity | intros k; reflexivity].
Qed.

Lemma caller_argument_unchanged_witness :
  let w' := snd (createMethodProxy db_ok "product" "create" (VRef 0) w_flagged) in
  heap w' !! 0 = Some [("data", VRef 1); ("writeToPrimary", VBool true)] /\
  own_props (heap w') (VRef 0) = own_props (heap w_flagged) (VRef 0) /\
  (forall k, has_key k (own_props (heap w') (VRef 0)) =
             has_key k [("data", VRef 1); ("writeToPrimary", VBool true)]).
Proof.
  apply (caller_argument_unchanged db_ok "product" "create" 0
           [("data", VRef 1); ("writeToPrimary", VBool true)] w_flagged).
  reflexivity.
Defined.

(** *** Transactions *)

Lemma falsy_own_props (h : store) (v : value) :
  truthy v = false -> own_props h v = [].
Proof.
  destruct v; cbn; try discriminate; try reflexivity.
  intros Hs. apply negb_false_iff, String.eqb_eq in Hs. subst s. reflexivity.
Qed.

Lemma falsy_get_prop (h : store) (v : value) (k : string) :
  truthy v = false -> get_prop h v k = VUndefined.
Proof. intros Hv. unfold get_prop. rewrite falsy_own_props by exact Hv. reflexivity. Qed.

Lemma request_await (db : world -> event -> completion value) (e : event) (w : world) :
  bind (request db e) await w =
  (awaited (db w e), {| heap := heap w; trace := trace w ++ [e] |}).
Proof.
  unfold bind, request. destruct (db w e) as [[]|]; reflexivity.
Qed.

Lemma transaction_run
    (db : world -> event -> completion value) (batch options : value) (w : world) :
  let h1 := if truthy options then heap w else heap w ++ [[]] in
  let rest_props :=
    delete_key "timeout" (delete_key "writeToPrimary" (own_props (heap w) options)) in
  let h2 := h1 ++ [rest_props] in
  let passed := VRef (List.length h2) in
  let h3 := h2 ++ [("timeout", get_prop (heap w) options "timeout") :: rest_props] in
  let c := if truthy (get_prop (heap w) options "writeToPrimary") then Primary else Main in
  let ev := EvTransaction c batch passed in
  let r := awaited (db {| heap := h3; trace := trace w |} ev) in
  transaction db batch options w =
  (r, {| heap := h3;
         trace := trace w ++ ev ::
                  match r with
                  | Normal _ => []
                  | Throw error =>
                      [EvLogError ("Transaction failed: " +:+ error_message error) None]
                  end |}).
Proof.
  destruct w as [h t]. cbn [heap trace]. cbv zeta.
  unfold transaction.
  destruct (truthy options) eqn:Hopt.
  - unfold bind, try_catch, get, props_of, alloc, ret, emit, throw, request.
    cbn [heap trace].
    destruct (truthy (get_prop h options "writeToPrimary"));
      cbn [heap trace]; rewrite own_props_last;
      destruct (db _ _) as [[]|]; cbn [await awaited heap trace];
      unfold ret, throw; cbn [heap trace]; rewrite <- ?app_assoc; reflexivity.
  - rewrite (falsy_get_prop h options "writeToPrimary" Hopt).
    rewrite (falsy_get_prop h options "timeout" Hopt).
    rewrite (falsy_own_props h options Hopt).
    unfold bind, try_catch, get, props_of, alloc, ret, emit, throw, request.
    cbn [heap trace truthy delete_key].
    unfold get_prop. rewrite !own_props_last.
    cbn [lookup_key default truthy delete_key heap trace].
    rewrite own_props_last.
    destruct (db _ _) as [[]|]; cbn [await awaited heap trace];
      unfold ret, throw; cbn [heap trace]; rewrite <- ?app_assoc; reflexivity.
Qed.

(** C5. One call of [$transaction] makes exactly one request, the
    transaction primitive of one connection applied to the whole batch: the
    primary when [writeToPrimary] in the options is true (truthy), the main
    connection when it is false, otherwise falsy, or absent (also when no
    options are given).  The options passed are a new object holding
    [timeout], with the caller's value, followed by the caller's other
    options without [writeToPrimary].  Nothing is sent to the other
    connection; the result is the transaction's, and a failure is logged and
    thrown again. *)
Theorem transaction_on_one_connection
    (db : world -> event -> completion value) (batch options : value) (w : world) :
  let c := if truthy (get_prop (heap w) options "writeToPrimary")
           then Primary else Main in
  exists passed r w',
    transaction db batch options w = (r, w') /\
    own_props (heap w') passed =
      ("timeout", get_prop (heap w) options "timeout") ::
      delete_key "timeout"
        (delete_key "writeToPrimary" (own_props (heap w) options)) /\
    r = match db {| heap := heap w'; trace := trace w |}
                 (EvTransaction c batch passed) with
        | Normal (VFulfilled x) => Normal x
        | Normal (VRejected reason) => Throw reason
        | reply => reply
        end /\
    trace w' =
      trace w ++ EvTransaction c batch passed ::
      match r with
      | Normal _ => []
      | Throw error =>
          [EvLogError ("Transaction failed: " +:+ error_message error) None]
      end.
Proof.
  intros c.
  pose proof (transaction_run db batch options w) as Hrun. cbv zeta in Hrun.
  eexists _, _, _. split; [exact Hrun|]. cbn [heap trace].
  split; [apply own_props_last|].
  split; [|reflexivity].
  subst c. unfold awaited. destruct (db _ _) as [[]|]; reflexivity.
Qed.

Example transaction_flag_true :
  transaction db_ok (VRef 1) (VRef 0) w_tx_primary =
  (Normal VNull,
   {| heap := heap w_tx_primary ++
              [ [("isolationLevel", VStr "Serializable")];
                [("timeout", VNum 5000); ("isolationLevel", VStr "Serializable")] ];
      trace := [EvTransaction Primary (VRef 1) (VRef 3)] |}).
Proof. reflexivity. Qed.

Example transaction_flag_false :
  transaction db_ok (VRef 1) (VRef 0) w_tx_main =
  (Normal VNull,
   {| heap := heap w_tx_main ++ [ []; [("timeout", VNum 5000)] ];
      trace := [EvTransaction Main (VRef 1) (VRef 3)] |}).
Proof. reflexivity. Qed.

Example transaction_without_options :
  transaction db_ok (VRef 1) VUndefined w_tx_main =
  (Normal VNull,
   {| heap := heap w_tx_main ++ [ []; []; [("timeout", VUndefined)] ];
      trace := [EvTransaction Main (VRef 1) (VRef 4)] |}).
Proof. reflexivity. Qed.

Example transaction_failure_logged :
  let '(r, w') := transaction db_tx_fails (VRef 1) (VRef 0) w_tx_primary in
  r = Throw (VError "deadlock detected") /\
  trace w' = [EvTransaction Primary (VRef 1) (VRef 3);
              EvLogError "Transaction failed: deadlock detected" None].
Proof. split; reflexivity. Qed.

(** *** Health check *)

(** C7, as stated, fails: the fallback is not decided by whether the error
    carries a message.  An [Error] with the empty message gives the details
    [""] and not the generic string, and a thrown object that is not an
    [Error] gives ["Unknown error"] although it has a [message]. *)
Lemma health_details_counterexample :
  fst (checkDatabaseHealth (fun _ _ => Normal (VRejected (VError "")))
         {| heap := []; trace := [] |}) =
    Normal {| status := unhealthy; details := "" |} /\
  get_prop (heap w_error_object) (VRef 0) "message" = VStr "connection refused" /\
  fst (checkDatabaseHealth (fun _ _ => Normal (VRejected (VRef 0))) w_error_object) =
    Normal {| status := unhealthy; details := "Unknown error" |}.
Proof. repeat split. Qed.

(** C7, amended. [checkDatabaseHealth] never throws.  It sends one round-trip
    query, to the main connection, and returns [healthy] with
    ["Database connection successful"] when the query succeeds, and
    [unhealthy] when the query throws or its promise rejects: with the
    message of what was thrown when that is an instance of [Error], whatever
    the message, and with ["Unknown error"] when it is not an instance of
    [Error], whatever it carries. *)
Theorem checkDatabaseHealth_total
    (db : world -> event -> completion value) (w : world) :
  exists result,
    checkDatabaseHealth db w =
      (Normal result,
       {| heap := heap w; trace := trace w ++ [EvQueryRaw Main "SELECT 1"] |}) /\
    result =
      match db w (EvQueryRaw Main "SELECT 1") with
      | Throw error | Normal (VRejected error) =>
          {| status := unhealthy;
             details := match error with
                        | VError message | VReadOnlyError message _ => message
                        | _ => "Unknown error"
                        end |}
      | Normal _ =>
          {| status := healthy; details := "Database connection successful" |}
      end.
Proof.
  unfold checkDatabaseHealth, try_catch, bind, request.
  destruct (db w _) as [v|e].
  - destruct v; cbn [await]; unfold ret, throw; eexists; split; reflexivity.
  - eexists; split; reflexivity.
Qed.

Example health_of_failing_database :
  fst (checkDatabaseHealth
         (fun _ _ => Normal (VRejected (VError "connection refused")))
         {| heap := []; trace := [] |}) =
  Normal {| status := unhealthy; details := "connection refused" |}.
Proof. reflexivity. Qed.

(** *** Shutdown *)

Lemma disconnectPrisma_never_throws
    (db : world -> event -> completion value) (isServer : bool) (w : world) :
  exists w', disconnectPrisma db isServer w = (Normal tt, w') /\ heap w' = heap w.
Proof.
  unfold disconnectPrisma, try_catch.
  destruct isServer; cbn [negb]; [|eexists; split; reflexivity].
  unfold bind, request, emit. cbn [heap trace await_all].
  destruct (db w _) as [a|e]; [|eexists; split; reflexivity].
  destruct (db _ _) as [b|e]; [|eexists; split; reflexivity].
  unfold bind.
  destruct a, b; cbn [await]; unfold ret, throw; eexists; split; reflexivity.
Qed.


Example disconnect_twice_closed_once :
  let '(r1, w1) := disconnectPrisma db_closes_once true {| heap := []; trace := [] |} in
  let '(r2, w2) := disconnectPrisma db_closes_once true w1 in
  r1 = Normal tt /\ r2 = Normal tt /\
  trace w2 =
    [EvDisconnect Main; EvDisconnect Primary;
     EvLog "Prisma clients disconnected successfully";
     EvDisconnect Main;
     EvLogError "Error disconnecting Prisma clients:"
                (Some (VError "already disconnected"))].
Proof. repeat split. Qed.

(** *** The primary client's target *)

(** C9. On the server, with no client cached from an earlier load, a valid
    environment in which no distinct primary URL is configured (the variable
    is unset, empty, or equal to the main URL) gives a primary client whose
    target is the main connection string. *)
Theorem primary_degrades_to_main
    (e : Clients.Env) (g : Clients.Globals) (mainUrl : string) :
  Clients.validateEnvironment true e = Normal tt ->
  Clients.DATABASE_URL e = Some mainUrl ->
  Clients.env_truthy (Clients.DATABASE_PRIMARY_URL e) = false \/
    Clients.DATABASE_PRIMARY_URL e = Some mainUrl ->
  Clients.global_prismaPrimary g = None ->
  exists main primary g',
    Clients.load true e g = Normal (main, Some primary, g') /\
    Clients.prismaPrimary true e g = Some primary /\
    Clients.datasources_db_url (Clients.options_of primary) = mainUrl /\
    primary = {| Clients.options_of := Clients.createPrismaOptions mainUrl |}.
Proof.
  intros Hvalid Hmain Hprimary Hfresh.
  unfold Clients.load. rewrite Hvalid.
  unfold Clients.prismaPrimary, Clients.env_or.
  rewrite Hmain, Hfresh.
  destruct Hprimary as [Hprimary|Hprimary]; rewrite Hprimary.
  - cbn [Clients.nullish_or default]. eexists _, _, _. repeat split.
  - destruct (Clients.env_truthy (Some mainUrl));
      cbn [Clients.nullish_or default]; eexists _, _, _; repeat split.
Qed.

Lemma primary_degrades_to_main_witness :
  exists main primary g',
    Clients.load true Clients.env_main_only Clients.no_globals =
      Normal (main, Some primary, g') /\
    Clients.prismaPrimary true Clients.env_main_only Clients.no_globals =
      Some primary /\
    Clients.datasources_db_url (Clients.options_of primary) =
      "postgresql://db.internal:5432/shop" /\
    primary = {| Clients.options_of :=
                   Clients.createPrismaOptions "postgresql://db.internal:5432/shop" |}.
Proof.
  apply (primary_degrades_to_main Clients.env_main_only Clients.no_globals
           "postgresql://db.internal:5432/shop");
    [reflexivity | reflexivity | left; reflexivity | reflexivity].
Defined.

(** A distinct primary URL is used when one is configured. *)
Example primary_url_when_configured :
  Clients.datasources_db_url
    (Clients.options_of
       (default {| Clients.options_of := Clients.createPrismaOptions "" |}
          (Clients.prismaPrimary true
             {| Clients.DATABASE_URL := Some "postgresql://replica:5432/shop";
                Clients.DATABASE_PRIMARY_URL := Some "postgresql://writer:5432/shop";
                Clients.NODE_ENV := Some "production" |}
             Clients.no_globals))) =
  "postgresql://writer:5432/shop".
Proof. reflexivity. Qed.

(** ** Further properties of the facade *)

(** *** Strings: prefixes and substrings *)

Lemma prefix_spec (p s : string) :
  String.prefix p s = true <-> exists rest, s = p +:+ rest.
Proof.
  revert s. induction p as [|c p IH]; intros s.
  - split; [intros _; exists s; reflexivity|].
    intros _. destruct s; reflexivity.
  - destruct s as [|d s]; cbn [String.prefix].
    + split; [discriminate | intros [rest H]; discriminate H].
    + destruct (Ascii.ascii_dec c d) as [->|Hne].
      * rewrite IH. split; intros [rest H]; exists rest.
        -- change (String d s = String d (p +:+ rest)). rewrite H. reflexivity.
        -- change (String d s = String d (p +:+ rest)) in H. congruence.
      * split; [discriminate|]. intros [rest H].
        change (String d s = String c (p +:+ rest)) in H. congruence.
Qed.

Lemma str_includes_spec (s sub : string) :
  Clients.str_includes s sub = true <->
  exists before after, s = before +:+ sub +:+ after.
Proof.
  induction s as [|c s IH]; cbn [Clients.str_includes].
  - rewrite orb_false_r, prefix_spec. split.
    + intros [rest H]. exists "", rest. exact H.
    + intros (before & after & H).
      destruct before as [|b before]; [exists after; exact H|].
      discriminate H.
  - rewrite orb_true_iff, prefix_spec, IH. split.
    + intros [[rest H]|(before & after & H)].
      * exists "", rest. exact H.
      * exists (String c before), after.
        change (String c s = String c (before +:+ sub +:+ after)).
        rewrite H. reflexivity.
    + intros (before & after & H).
      destruct before as [|b before].
      * left. exists after. exact H.
      * right. exists before, after.
        change (String c s = String b (before +:+ sub +:+ after)) in H.
        congruence.
Qed.

(** *** Environment validation and client options *)

(** X1. On the server [validateEnvironment] returns normally exactly when
    [DATABASE_URL] is set and begins with [postgresql://] or [mysql://] and
    [NODE_ENV] is set and not empty; in every other case it throws. *)
Theorem validateEnvironment_accepts_iff (e : Clients.Env) :
  Clients.validateEnvironment true e = Normal tt <->
  exists url mode rest,
    Clients.DATABASE_URL e = Some url /\
    Clients.NODE_ENV e = Some mode /\ mode <> "" /\
    (url = "postgresql://" +:+ rest \/ url = "mysql://" +:+ rest).
Proof.
  unfold Clients.validateEnvironment, Clients.env_truthy, Clients.startsWith.
  cbn [negb].
  destruct (Clients.DATABASE_URL e) as [url|]; cbn [from_option id];
    [|split; [discriminate | intros (? & ? & ? & [=] & _)]].
  destruct (String.eqb url "") eqn:Hurl; cbn [negb].
  { apply String.eqb_eq in Hurl. subst url.
    split; [discriminate|].
    intros (url & mode & rest & [= <-] & _ & _ & [H|H]); discriminate H. }
  destruct (Clients.NODE_ENV e) as [mode|];
    [|split; [discriminate | intros (? & ? & ? & _ & [=] & _)]].
  destruct (String.eqb mode "") eqn:Hmode; cbn [negb].
  { apply String.eqb_eq in Hmode. subst mode.
    split; [discriminate|].
    intros (? & mode & ? & _ & [= <-] & Hne & _). congruence. }
  apply String.eqb_neq in Hmode.
  destruct (String.prefix "postgresql://" url) eqn:Hpg; cbn [negb andb].
  - apply prefix_spec in Hpg as [rest Hpg].
    split; [|reflexivity]. intros _.
    exists url, mode, rest. auto.
  - destruct (String.prefix "mysql://" url) eqn:Hmy; cbn [negb].
    + apply prefix_spec in Hmy as [rest Hmy].
      split; [|reflexivity]. intros _.
      exists url, mode, rest. auto.
    + split; [discriminate|].
      intros (url' & mode' & rest & [= <-] & _ & _ & [H|H]).
      * assert (String.prefix "postgresql://" url = true)
          by (apply prefix_spec; eauto). congruence.
      * assert (String.prefix "mysql://" url = true)
          by (apply prefix_spec; eauto). congruence.
Qed.

(** X2. [createPrismaOptions] keeps the URL it is given as the datasource URL
    and caps the engine's pool (limit 1, pool 0 to 1) exactly when the URL
    contains [postgresql://] somewhere, not only at its start; otherwise it
    sets no engine options. *)
Theorem createPrismaOptions_pool_iff (databaseUrl : string) :
  Clients.datasources_db_url (Clients.createPrismaOptions databaseUrl) = databaseUrl /\
  (Clients.__internal (Clients.createPrismaOptions databaseUrl) =
     Some {| Clients.connectionLimit := 1; Clients.pool_min := 0;
             Clients.pool_max := 1 |} <->
   exists before after, databaseUrl = before +:+ "postgresql://" +:+ after) /\
  (Clients.__internal (Clients.createPrismaOptions databaseUrl) = None <->
   ~ exists before after, databaseUrl = before +:+ "postgresql://" +:+ after).
Proof.
  split; [reflexivity|].
  unfold Clients.createPrismaOptions. cbn [Clients.__internal].
  rewrite <- str_includes_spec.
  destruct (Clients.str_includes databaseUrl "postgresql://").
  - split; split; try reflexivity; try discriminate; intros H; congruence.
  - split; split; try reflexivity; try discriminate; intros _; discriminate.
Qed.

Example mysql_url_naming_postgres_is_capped :
  Clients.__internal
    (Clients.createPrismaOptions "mysql://db/shop?via=postgresql://old") =
  Some {| Clients.connectionLimit := 1; Clients.pool_min := 0; Clients.pool_max := 1 |}.
Proof. reflexivity. Qed.

(** X3. Outside production a second load of the module reuses the two clients
    of the first load: with the globals the first load left, any later load
    whose environment passes validation returns the very same clients,
    whatever URLs that environment names, and leaves the globals as they
    are. *)
Theorem load_reuses_clients
    (e1 e2 : Clients.Env) (g g1 : Clients.Globals)
    (main primary : option Clients.PrismaClient) :
  Clients.is_production e1 = false ->
  Clients.load true e1 g = Normal (main, primary, g1) ->
  Clients.validateEnvironment true e2 = Normal tt ->
  Clients.load true e2 g1 = Normal (main, primary, g1).
Proof.
  intros Hdev H1 Hvalid2.
  unfold Clients.load in *. rewrite Hvalid2.
  destruct (Clients.validateEnvironment true e1); [|discriminate].
  rewrite Hdev in H1. cbn [negb andb] in H1.
  injection H1 as <- <- <-.
  unfold Clients.prismaMain, Clients.prismaPrimary.
  cbn [Clients.global_prismaMain Clients.global_prismaPrimary Clients.nullish_or].
  destruct (Clients.is_production e2); reflexivity.
Qed.

Lemma load_reuses_clients_witness :
  Clients.load true env_dev_edited
    {| Clients.global_prismaMain :=
         Some {| Clients.options_of :=
                   Clients.createPrismaOptions "postgresql://localhost:5432/shop" |};
       Clients.global_prismaPrimary :=
         Some {| Clients.options_of :=
                   Clients.createPrismaOptions "postgresql://localhost:6432/shop" |} |} =
  Normal
    (Some {| Clients.options_of :=
               Clients.createPrismaOptions "postgresql://localhost:5432/shop" |},
     Some {| Clients.options_of :=
               Clients.createPrismaOptions "postgresql://localhost:6432/shop" |},
     {| Clients.global_prismaMain :=
          Some {| Clients.options_of :=
                    Clients.createPrismaOptions "postgresql://localhost:5432/shop" |};
        Clients.global_prismaPrimary :=
          Some {| Clients.options_of :=
                    Clients.createPrismaOptions "postgresql://localhost:6432/shop" |} |}).
Proof.
  apply (load_reuses_clients env_dev env_dev_edited Clients.no_globals);
    reflexivity.
Defined.

(** X4. A primary URL that is set and not empty becomes the primary client's
    target as it is: validation looks at [DATABASE_URL] and [NODE_ENV] only,
    so the primary URL is not required to have a supported scheme. *)
Theorem primary_uses_configured_url
    (e : Clients.Env) (g : Clients.Globals) (primaryUrl : string) :
  Clients.validateEnvironment true e = Normal tt ->
  Clients.DATABASE_PRIMARY_URL e = Some primaryUrl ->
  primaryUrl <> "" ->
  Clients.global_prismaPrimary g = None ->
  exists main primary g',
    Clients.load true e g = Normal (main, Some primary, g') /\
    Clients.datasources_db_url (Clients.options_of primary) = primaryUrl.
Proof.
  intros Hvalid Hprimary Hne Hfresh.
  unfold Clients.load. rewrite Hvalid.
  unfold Clients.prismaPrimary, Clients.env_or, Clients.env_truthy.
  rewrite Hprimary, Hfresh.
  apply String.eqb_neq in Hne. rewrite Hne.
  cbn [negb Clients.nullish_or default].
  eexists _, _, _. split; reflexivity.
Qed.

Lemma primary_uses_configured_url_witness :
  exists main primary g',
    Clients.load true
      {| Clients.DATABASE_URL := Some "postgresql://replica:5432/shop";
         Clients.DATABASE_PRIMARY_URL := Some "writer.internal";
         Clients.NODE_ENV := Some "production" |}
      Clients.no_globals = Normal (main, Some primary, g') /\
    Clients.datasources_db_url (Clients.options_of primary) = "writer.internal".
Proof.
  apply (primary_uses_configured_url
           {| Clients.DATABASE_URL := Some "postgresql://replica:5432/shop";
              Clients.DATABASE_PRIMARY_URL := Some "writer.internal";
              Clients.NODE_ENV := Some "production" |}
           Clients.no_globals "writer.internal");
    [reflexivity | reflexivity | discriminate | reflexivity].
Defined.

(** *** cleanOptions in general *)

Lemma lookup_key_delete_same (k : string) (o : obj) :
  lookup_key k (delete_key k o) = None.
Proof.
  pose proof (has_key_delete_key k o) as H. unfold has_key in H.
  destruct (lookup_key k (delete_key k o)); [discriminate | reflexivity].
Qed.

Lemma lookup_key_delete_keys_in (keys : list string) (k : string) (o : obj) :
  In k keys -> lookup_key k (delete_keys keys o) = None.
Proof.
  unfold delete_keys. revert o.
  induction keys as [|k0 keys IH]; intros o Hin; [destruct Hin|].
  cbn [fold_left].
  destruct (String.eqb_spec k0 k) as [->|Hne].
  - destruct (in_dec String.string_dec k keys) as [Hin'|Hnot]; [apply IH, Hin'|].
    clear IH Hin. revert o.
    induction keys as [|k1 keys IH]; intros o; cbn [fold_left].
    + apply lookup_key_delete_same.
    + assert (Hk1 : k1 <> k) by (intros ->; apply Hnot; left; reflexivity).
      assert (Hrest : ~ In k keys) by (intros H; apply Hnot; right; exact H).
      specialize (IH Hrest).
      assert (Hcomm : delete_key k1 (delete_key k o) = delete_key k (delete_key k1 o)).
      { clear. induction o as [|[k' v] o IHo]; cbn; [reflexivity|].
        destruct (String.eqb k k') eqn:E1, (String.eqb k1 k') eqn:E2; cbn;
          rewrite ?E1, ?E2, ?IHo; reflexivity. }
      rewrite Hcomm. apply IH.
  - destruct Hin as [Heq|Hin]; [congruence|]. apply IH, Hin.
Qed.

Lemma lookup_key_delete_keys_out (keys : list string) (k : string) (o : obj) :
  ~ In k keys -> lookup_key k (delete_keys keys o) = lookup_key k o.
Proof.
  unfold delete_keys. revert o.
  induction keys as [|k0 keys IH]; intros o Hout; [reflexivity|].
  cbn [fold_left]. rewrite IH by (intros H; apply Hout; right; exact H).
  apply lookup_key_delete_other. intros ->. apply Hout. left. reflexivity.
Qed.

(** X5. [cleanOptions args keys] returns a new object and changes nothing
    else: the reference it returns was not in the store, every object that
    was there is the same afterwards, and the new object has none of the
    keys listed while every other key has the value it has in [args]. *)
Theorem cleanOptions_copy_without_keys
    (args : value) (keys : list string) (w : world) :
  exists l w',
    cleanOptions args keys w = (Normal (VRef l), w') /\
    heap w !! l = None /\
    (forall a o, heap w !! a = Some o -> heap w' !! a = Some o) /\
    trace w' = trace w /\
    (forall k, In k keys ->
       lookup_key k (own_props (heap w') (VRef l)) = None) /\
    (forall k, ~ In k keys ->
       lookup_key k (own_props (heap w') (VRef l)) =
       lookup_key k (own_props (heap w) args)).
Proof.
  rewrite cleanOptions_run.
  eexists _, _. split; [reflexivity|]. cbn [heap trace].
  split; [apply lookup_ge_None_2; reflexivity|].
  split; [intros a o Ha; apply lookup_app_l_Some; exact Ha|].
  split; [reflexivity|].
  rewrite own_props_last.
  split; intros k Hk.
  - apply lookup_key_delete_keys_in, Hk.
  - apply lookup_key_delete_keys_out, Hk.
Qed.

(** *** What the method proxy hands back *)

(** X6. What the forwarded call returns, the method proxy returns unchanged.
    The proxy does not await it: a promise that rejects is handed to the
    caller as it is, with the reason and the message it had, and is not seen
    by the handler that adds the method and entity to thrown errors. *)
Theorem returned_value_passed_through
    (db : world -> event -> completion value)
    (modelName method : string) (args : value) (w : world) :
  exists c arg w',
    snd (createMethodProxy db modelName method args w) = w' /\
    trace w' = trace w ++ [EvCall c modelName method arg] /\
    forall v,
      db {| heap := heap w'; trace := trace w |}
         (EvCall c modelName method arg) = Normal v ->
      fst (createMethodProxy db modelName method args w) = Normal v.
Proof.
  destruct (isWriteMethod method) eqn:Hw.
  - pose proof (write_run db modelName method args w Hw) as Hrun.
    cbv zeta in Hrun. rewrite Hrun. cbn [fst snd].
    eexists _, _, _. split; [reflexivity|]. cbn [heap trace].
    split; [reflexivity|].
    intros v Hv. rewrite Hv. reflexivity.
  - pose proof (read_run db modelName method args w Hw) as Hrun.
    cbv zeta in Hrun. rewrite Hrun. cbn [fst snd].
    eexists _, _, _. split; [reflexivity|]. cbn [heap trace].
    split; [reflexivity|].
    intros v Hv. rewrite Hv. reflexivity.
Qed.

(** *** More on transactions *)

Lemma has_key_delete_other (k k' : string) (o : obj) :
  k <> k' -> has_key k' (delete_key k o) = has_key k' o.
Proof.
  intros Hne. unfold has_key. rewrite lookup_key_delete_other by exact Hne.
  reflexivity.
Qed.

(** X7. The options object [$transaction] hands to the connection never has
    the [writeToPrimary] key and always has the [timeout] key, with the value
    [undefined] when the caller gave no timeout; each other option of the
    caller is there with its value. *)
Theorem transaction_passed_options
    (db : world -> event -> completion value) (batch options : value) (w : world) :
  exists c passed w',
    snd (transaction db batch options w) = w' /\
    In (EvTransaction c batch passed) (trace w') /\
    has_key "writeToPrimary" (own_props (heap w') passed) = false /\
    lookup_key "timeout" (own_props (heap w') passed) =
      Some (get_prop (heap w) options "timeout") /\
    (forall k, k <> "writeToPrimary" -> k <> "timeout" ->
       lookup_key k (own_props (heap w') passed) =
       lookup_key k (own_props (heap w) options)).
Proof.
  pose proof (transaction_run db batch options w) as Hrun. cbv zeta in Hrun.
  rewrite Hrun. cbn [snd].
  eexists _, _, _. split; [reflexivity|]. cbn [heap trace].
  split; [apply in_or_app; right; left; reflexivity|].
  rewrite own_props_last.
  split.
  - unfold has_key. cbn [lookup_key String.eqb Ascii.eqb Bool.eqb].
    rewrite lookup_key_delete_other by discriminate.
    rewrite lookup_key_delete_same. reflexivity.
  - split; [reflexivity|].
    intros k Hk1 Hk2. cbn [lookup_key].
    destruct (String.eqb_spec k "timeout") as [->|_]; [congruence|].
    rewrite !lookup_key_delete_other by congruence. reflexivity.
Qed.

(** X8. [$transaction] does not mutate the caller's options, nor any other
    object: whatever was in the store before the call is the same after it,
    however the transaction ends. *)
Theorem transaction_preserves_store
    (db : world -> event -> completion value) (batch options : value)
    (w : world) (a : loc) (o : obj) :
  heap w !! a = Some o ->
  heap (snd (transaction db batch options w)) !! a = Some o.
Proof.
  intros Ha.
  pose proof (transaction_run db batch options w) as Hrun. cbv zeta in Hrun.
  rewrite Hrun. cbn [snd heap].
  do 2 apply lookup_app_l_Some.
  destruct (truthy options); [exact Ha | apply lookup_app_l_Some; exact Ha].
Qed.

Lemma transaction_preserves_store_witness :
  heap (snd (transaction db_ok (VRef 1) (VRef 0) w_tx_primary)) !! 0 =
  Some [("writeToPrimary", VBool true); ("timeout", VNum 5000);
        ("isolationLevel", VStr "Serializable")].
Proof.
  apply (transaction_preserves_store db_ok (VRef 1) (VRef 0) w_tx_primary 0).
  reflexivity.
Defined.

(** *** More on shutdown *)

(** X9. If [prismaMain.$disconnect()] throws on the spot, the primary
    connection is never asked to disconnect: the only request is the one to
    the main connection, and the error is logged. *)
Theorem disconnect_main_throws_skips_primary
    (db : world -> event -> completion value) (w : world) (error : value) :
  db w (EvDisconnect Main) = Throw error ->
  disconnectPrisma db true w =
  (Normal tt,
   {| heap := heap w;
      trace := trace w ++
               [EvDisconnect Main;
                EvLogError "Error disconnecting Prisma clients:" (Some error)] |}).
Proof.
  intros Hmain.
  unfold disconnectPrisma, try_catch, bind, request, emit. cbn [negb heap trace].
  rewrite Hmain. cbn [heap trace]. rewrite <- app_assoc. reflexivity.
Qed.

Lemma disconnect_main_throws_skips_primary_witness :
  disconnectPrisma db_throws_string true {| heap := []; trace := [] |} =
  (Normal tt,
   {| heap := [];
      trace := [] ++
               [EvDisconnect Main;
                EvLogError "Error disconnecting Prisma clients:" (Some (VStr "boom"))] |}).
Proof.
  apply (disconnect_main_throws_skips_primary db_throws_string
           {| heap := []; trace := [] |} (VStr "boom")).
  reflexivity.
Defined.

(** X10. On the server [disconnectPrisma] logs the success message exactly
    when both [$disconnect] calls succeed; in every other case it logs the
    error instead, and the success message is not logged. *)
Theorem disconnect_logs_success_iff
    (db : world -> event -> completion value) (w : world) :
  let w1 := {| heap := heap w; trace := trace w ++ [EvDisconnect Main] |} in
  let w' := snd (disconnectPrisma db true w) in
  if closes (db w (EvDisconnect Main)) && closes (db w1 (EvDisconnect Primary))
  then
    trace w' = trace w ++ [EvDisconnect Main; EvDisconnect Primary;
                           EvLog "Prisma clients disconnected successfully"]
  else
    exists requests error,
      trace w' = trace w ++ requests ++
                 [EvLogError "Error disconnecting Prisma clients:" (Some error)] /\
      ~ In (EvLog "Prisma clients disconnected successfully") requests.
Proof.
  cbv zeta.
  unfold disconnectPrisma, try_catch, bind, request, emit. cbn [negb heap trace await_all].
  destruct (db w (EvDisconnect Main)) as [a|e]; cbn [closes andb].
  - destruct (db _ (EvDisconnect Primary)) as [b|e].
    + unfold bind.
      destruct a, b; cbn [await closes andb]; unfold ret, throw; cbn [snd heap trace];
        first
          [ rewrite <- ?app_assoc; reflexivity
          | exists [EvDisconnect Main; EvDisconnect Primary]; eexists;
            split; [rewrite <- ?app_assoc; reflexivity
                   | intros [H|[H|[]]]; discriminate H] ].
    + destruct a; cbn [closes andb snd trace];
        (exists [EvDisconnect Main; EvDisconnect Primary]; eexists;
         split; [rewrite <- ?app_assoc; reflexivity
                | intros [H|[H|[]]]; discriminate H]).
  - cbn [snd trace].
    exists [EvDisconnect Main]; eexists.
    split; [rewrite <- ?app_assoc; reflexivity | intros [H|[]]; discriminate H].
Qed.

Lemma disconnectPrisma_server_starts
    (db : world -> event -> completion value) (w w' : world) :
  disconnectPrisma db true w = (Normal tt, w') ->
  exists later, trace w' = trace w ++ EvDisconnect Main :: later.
Proof.
  unfold disconnectPrisma, try_catch. cbn [negb].
  unfold bind, request, emit. cbn [heap trace await_all].
  destruct (db _ (EvDisconnect Main)) as [a|e].
  - destruct (db _ (EvDisconnect Primary)) as [b|e].
    + unfold bind.
      destruct a, b; cbn [await]; unfold ret, throw; cbn [heap trace];
        intros [= <-]; cbn [trace]; rewrite <- !app_assoc; eexists; reflexivity.
    + intros [= <-]; cbn [trace]; rewrite <- !app_assoc; eexists; reflexivity.
  - intros [= <-]; cbn [trace]; rewrite <- !app_assoc; eexists; reflexivity.
Qed.

(** X11. The signal handler always ends by exiting with code 0: it logs the
    signal, then runs [disconnectPrisma] in the world that leaves (on the
    server the next event is the request to disconnect the main connection,
    and what follows is what [disconnectPrisma] does there), and reaches
    [process.exit(0)] whether or not the connections could be closed. *)
Theorem shutdown_exits_zero
    (db : world -> event -> completion value) (isServer : bool)
    (signal : string) (w : world) :
  let logged :=
    {| heap := heap w;
       trace := trace w ++
                [EvLog ("Received " +:+ signal +:+ ", shutting down gracefully...")] |} in
  exists w',
    shutdown db isServer signal w = (Normal 0%Z, w') /\
    disconnectPrisma db isServer logged = (Normal tt, w') /\
    if isServer then
      exists later, trace w' = trace logged ++ EvDisconnect Main :: later
    else w' = logged.
Proof.
  cbv zeta.
  set (logged := {| heap := heap w;
                    trace := trace w ++
                      [EvLog ("Received " +:+ signal +:+ ", shutting down gracefully...")] |}).
  assert (Hshutdown : shutdown db isServer signal w =
            match disconnectPrisma db isServer logged with
            | (Normal _, w') => (Normal 0%Z, w')
            | (Throw e, w') => (Throw e, w')
            end) by reflexivity.
  destruct (disconnectPrisma_never_throws db isServer logged) as (w' & Hrun & _).
  rewrite Hshutdown, Hrun. exists w'.
  split; [reflexivity|]. split; [reflexivity|].
  destruct isServer.
  - apply (disconnectPrisma_server_starts db logged w' Hrun).
  - unfold disconnectPrisma, try_catch in Hrun. cbn [negb] in Hrun.
    unfold ret in Hrun. congruence.
Qed.

(** ** Properties of the search-index client *)

(** *** Search parameters *)

Lemma get_param_remove_name (name k : string) (l : list (string * string)) :
  Solr.get_param k (Solr.remove_name name l) =
  if String.eqb k name then None else Solr.get_param k l.
Proof.
  unfold Solr.remove_name.
  induction l as [|[k0 v0] l IH]; cbn [List.filter Solr.get_param fst].
  - destruct (String.eqb k name); reflexivity.
  - destruct (String.eqb_spec name k0) as [->|Hne]; cbn [negb].
    + rewrite IH. destruct (String.eqb k k0); reflexivity.
    + cbn [Solr.get_param]. rewrite IH.
      destruct (String.eqb_spec k k0) as [->|Hk]; [|reflexivity].
      destruct (String.eqb_spec k0 name) as [->|_]; [congruence | reflexivity].
Qed.

Lemma get_param_set (name val k : string) (l : list (string * string)) :
  Solr.get_param k (Solr.set name val l) =
  if String.eqb k name then Some val else Solr.get_param k l.
Proof.
  induction l as [|[k0 v0] l IH]; cbn [Solr.set Solr.get_param].
  - reflexivity.
  - destruct (String.eqb_spec name k0) as [->|Hne]; cbn [Solr.get_param].
    + destruct (String.eqb_spec k k0) as [->|Hk]; [reflexivity|].
      rewrite get_param_remove_name.
      destruct (String.eqb_spec k k0); [congruence | reflexivity].
    + rewrite IH.
      destruct (String.eqb_spec k k0) as [->|Hk]; [|reflexivity].
      destruct (String.eqb_spec k0 name) as [->|_]; [congruence | reflexivity].
Qed.

Lemma get_param_app (k : string) (l1 l2 : list (string * string)) :
  Solr.get_param k (l1 ++ l2) =
  match Solr.get_param k l1 with
  | Some v => Some v
  | None => Solr.get_param k l2
  end.
Proof.
  induction l1 as [|[k0 v0] l1 IH]; cbn [app Solr.get_param]; [reflexivity|].
  destruct (String.eqb k k0); [reflexivity | exact IH].
Qed.

Lemma get_param_fold_set (k : string) (additional base : list (string * string)) :
  Solr.get_param k
    (fold_left (fun sp kv => Solr.set (fst kv) (snd kv) sp) additional base) =
  match Solr.get_param k (rev additional) with
  | Some v => Some v
  | None => Solr.get_param k base
  end.
Proof.
  revert base.
  induction additional as [|[k0 v0] additional IH]; intros base;
    cbn [fold_left rev fst snd]; [reflexivity|].
  rewrite IH, get_param_app, get_param_set. cbn [Solr.get_param].
  destruct (Solr.get_param k (rev additional)); [reflexivity|].
  destruct (String.eqb k k0); reflexivity.
Qed.

Lemma in_keys_remove_name (name k : string) (l : list (string * string)) :
  In k (map fst (Solr.remove_name name l)) -> In k (map fst l) /\ k <> name.
Proof.
  unfold Solr.remove_name. rewrite in_map_iff.
  intros ([k' v'] & <- & Hin). apply filter_In in Hin as [Hin Hk].
  cbn [fst] in *. split.
  - apply in_map_iff. exists (k', v'). split; [reflexivity | exact Hin].
  - apply negb_true_iff, String.eqb_neq in Hk. congruence.
Qed.

Lemma keys_remove_name_NoDup (name : string) (l : list (string * string)) :
  List.NoDup (map fst l) -> List.NoDup (map fst (Solr.remove_name name l)).
Proof.
  unfold Solr.remove_name.
  induction l as [|[k v] l IH]; cbn [map List.filter fst]; intros Hnd.
  - constructor.
  - apply List.NoDup_cons_iff in Hnd as [Hnotin Hnd].
    destruct (negb (String.eqb name k)); [|apply IH, Hnd].
    cbn [map fst]. apply List.NoDup_cons_iff. split; [|apply IH, Hnd].
    intros Hin. apply Hnotin.
    apply (in_keys_remove_name name k l). exact Hin.
Qed.

Lemma in_keys_set (name val k : string) (l : list (string * string)) :
  In k (map fst (Solr.set name val l)) -> k = name \/ In k (map fst l).
Proof.
  induction l as [|[k0 v0] l IH]; cbn [Solr.set map fst].
  - intros [<-|[]]. left. reflexivity.
  - destruct (String.eqb_spec name k0) as [->|Hne]; cbn [map fst].
    + intros [<-|Hin]; [left; reflexivity|].
      right. right. apply (in_keys_remove_name k0 k l). exact Hin.
    + intros [<-|Hin]; [right; left; reflexivity|].
      destruct (IH Hin) as [->|H]; [left; reflexivity | right; right; exact H].
Qed.

Lemma keys_set_NoDup (name val : string) (l : list (string * string)) :
  List.NoDup (map fst l) -> List.NoDup (map fst (Solr.set name val l)).
Proof.
  induction l as [|[k v] l IH]; cbn [Solr.set map fst]; intros Hnd.
  - repeat constructor. intros [].
  - apply List.NoDup_cons_iff in Hnd as [Hnotin Hnd].
    destruct (String.eqb_spec name k) as [->|Hne]; cbn [map fst];
      apply List.NoDup_cons_iff.
    + split; [|apply keys_remove_name_NoDup, Hnd].
      intros Hin. apply in_keys_remove_name in Hin as [_ Hk]. congruence.
    + split; [|apply IH, Hnd].
      intros Hin. apply in_keys_set in Hin as [->|Hin]; [congruence | auto].
Qed.

(** X12. The search parameters [querySolr] sends never name a parameter
    twice, and [additionalParams] wins over the built-in ones: a name that
    [additionalParams] gives has the value of its last entry there, also for
    [q], [rows], [wt] and [start]; any other name has its built-in value. *)
Theorem searchParams_additional_override
    (query : string) (pageSize startOffset : Z)
    (additionalParams : list (string * string)) (name : string) :
  List.NoDup (map fst (Solr.searchParams query pageSize startOffset additionalParams)) /\
  Solr.get_param name
    (Solr.searchParams query pageSize startOffset additionalParams) =
  match Solr.get_param name (rev additionalParams) with
  | Some v => Some v
  | None =>
      Solr.get_param name
        [("q", query); ("rows", pretty pageSize); ("wt", "json");
         ("start", pretty startOffset)]
  end.
Proof.
  unfold Solr.searchParams. split.
  - cbv zeta.
    remember (Solr.set "start" (pretty startOffset)
                (Solr.set "wt" "json"
                   (Solr.set "rows" (pretty pageSize) (Solr.set "q" query []))))
      as base eqn:Ebase.
    assert (Hbase : List.NoDup (map fst base))
      by (subst base; do 4 apply keys_set_NoDup; constructor).
    clear Ebase. revert base Hbase.
    induction additionalParams as [|[k v] additional IH]; intros base Hbase;
      cbn [fold_left fst snd]; [exact Hbase|].
    apply IH, keys_set_NoDup, Hbase.
  - cbv zeta. rewrite get_param_fold_set. reflexivity.
Qed.

Example rows_overridden :
  Solr.searchParams "*:*" 20 0 [("fq", "is_active_b:true"); ("rows", "5")] =
  [("q", "*:*"); ("rows", "5"); ("wt", "json"); ("start", "0");
   ("fq", "is_active_b:true")].
Proof. reflexivity. Qed.

(** *** Runs of querySolr *)

Section SolrRuns.

Variables SOLR_URL SOLR_USERNAME SOLR_PASSWORD : option string.
Variable base64 : string -> string.
Variable serialize : list (string * string) -> string.
Variable fetch : Solr.Request -> completion Solr.Response.
Variable isServer : bool.
Variable objects : store.

Let querySolr :=
  Solr.querySolr SOLR_URL SOLR_USERNAME SOLR_PASSWORD base64 serialize fetch
    isServer objects.

Let startOffset (p : Solr.Params.t) : Z :=
  match Solr.Params.offset p with
  | Some o => o
  | None =>
      (default 1 (Solr.Params.page p) - 1) * default 20 (Solr.Params.pageSize p)
  end%Z.

Ltac solr_unfold :=
  unfold Solr.wcatch, Solr.wbind, Solr.wret,
    Solr.wthrow, Solr.lift, Solr.tell, Solr.do_fetch, Solr.getAuthHeader;
  cbv zeta.

(** The handler of [querySolr] always throws. *)
Lemma querySolr_handler_throws (error : value) :
  exists e done,
    Solr.wbind (Solr.lift (Solr.message_or_error objects error))
      (fun detail =>
         Solr.wbind (Solr.tell (Solr.ConsoleError "Fetch Solr failed:" detail))
           (fun _ => Solr.wthrow error)) =
    (@Throw Solr.SolrQueryResult e, done).
Proof.
  unfold Solr.wbind, Solr.lift, Solr.tell, Solr.wthrow.
  destruct (Solr.message_or_error objects error); eexists _, _; reflexivity.
Qed.

Lemma wcatch_normal {A : Type} (m : Solr.W A) (handler : value -> Solr.W A) (a : A) :
  (forall error, exists e done, handler error = (Throw e, done)) ->
  fst (Solr.wcatch m handler) = Normal a -> fst m = Normal a.
Proof.
  intros Hthrows. unfold Solr.wcatch.
  destruct m as [[x|error] done]; [intros H; exact H|].
  destruct (Hthrows error) as (e & more & ->). cbn [fst]. discriminate.
Qed.

Lemma querySolr_success (p : Solr.Params.t) (r : Solr.SolrQueryResult) :
  fst (querySolr p) = Normal r ->
  let ps := default 20%Z (Solr.Params.pageSize p) in
  Solr.pageSize r = ps /\
  Solr.currentPage r = Solr.floor_div (startOffset p) ps /\
  Solr.totalPages r = Solr.ceil_div (Solr.total r) ps /\
  Solr.hasNextPage r =
    Solr.num_lt (Solr.currentPage r) (Solr.minus_one (Solr.totalPages r)) /\
  Solr.hasPrevPage r = Solr.num_lt (Solr.Int 0) (Solr.currentPage r).
Proof.
  unfold querySolr, Solr.querySolr, startOffset. cbv zeta.
  destruct (String.eqb (Solr.Params.core p) ""); [discriminate|].
  intros H. apply wcatch_normal in H; [|apply querySolr_handler_throws].
  revert H. solr_unfold.
  destruct isServer.
  - destruct (negb (Clients.env_truthy SOLR_USERNAME) ||
              negb (Clients.env_truthy SOLR_PASSWORD)); [discriminate|].
    destruct (fetch _) as [resp|e]; [|discriminate].
    destruct (Solr.ok resp); cbn [negb].
    + destruct (Solr.json resp) as [result|e]; cbn [fst]; [|discriminate].
      intros [= <-]. repeat split.
    + destruct (Solr.text resp); discriminate.
  - destruct (fetch _) as [resp|e]; [|discriminate].
    destruct (Solr.ok resp); cbn [negb].
    + destruct (Solr.json resp) as [result|e]; cbn [fst]; [|discriminate].
      intros [= <-]. repeat split.
    + destruct (Solr.text resp); discriminate.
Qed.

Lemma ceil_quotient_bounds (t ps : Z) :
  (0 < ps)%Z -> ((- (- t / ps) - 1) * ps < t <= - (- t / ps) * ps)%Z.
Proof.
  intros Hps.
  pose proof (Z.div_mod (- t) ps ltac:(lia)) as Hdm.
  pose proof (Z.mod_pos_bound (- t) ps Hps) as Hb.
  nia.
Qed.

Lemma floor_quotient_bounds (a ps : Z) :
  (0 < ps)%Z -> (a / ps * ps <= a < (a / ps + 1) * ps)%Z.
Proof.
  intros Hps.
  pose proof (Z.div_mod a ps ltac:(lia)) as Hdm.
  pose proof (Z.mod_pos_bound a ps Hps) as Hb.
  nia.
Qed.

Lemma pagination_of_offset (p : Solr.Params.t) (r : Solr.SolrQueryResult) :
  (0 < default 20 (Solr.Params.pageSize p))%Z ->
  fst (querySolr p) = Normal r ->
  let ps := default 20%Z (Solr.Params.pageSize p) in
  let c := (startOffset p / ps)%Z in
  Solr.pageSize r = ps /\
  Solr.currentPage r = Solr.Int c /\
  Solr.hasPrevPage r = (ps <=? startOffset p)%Z /\
  Solr.hasNextPage r = ((c + 1) * ps <? Solr.total r)%Z /\
  exists n, Solr.totalPages r = Solr.Int n /\
            ((n - 1) * ps < Solr.total r <= n * ps)%Z.
Proof.
  intros Hps Hrun. cbv zeta.
  destruct (querySolr_success p r Hrun) as (Hsize & Hcur & Htot & Hnext & Hprev).
  cbv zeta in Hsize, Hcur, Htot.
  set (ps := default 20%Z (Solr.Params.pageSize p)) in *.
  assert (Hnz : (ps =? 0)%Z = false) by (apply Z.eqb_neq; lia).
  unfold Solr.floor_div, Solr.ceil_div, Solr.quotient in Hcur, Htot.
  rewrite Hnz in Hcur, Htot.
  rewrite Hcur, Htot in Hnext. rewrite Hcur in Hprev.
  cbn [Solr.minus_one Solr.num_lt] in Hnext, Hprev.
  pose proof (ceil_quotient_bounds (Solr.total r) ps Hps) as Hceil.
  pose proof (floor_quotient_bounds (startOffset p) ps Hps) as Hfloor.
  split; [exact Hsize|]. split; [exact Hcur|].
  split; [rewrite Hprev; apply eq_true_iff_eq; rewrite Z.ltb_lt, Z.leb_le; nia|].
  split; [rewrite Hnext; apply eq_true_iff_eq; rewrite !Z.ltb_lt; nia|].
  eexists. split; [exact Htot | exact Hceil].
Qed.

(** X13. With a positive page size and no [offset], [querySolr] takes [page]
    as a 1-based page number and reports a 0-based one: whenever it returns,
    [currentPage] is [page - 1], there is a previous page exactly when [page]
    is above 1, a next page exactly when [page * pageSize] is below the total,
    and [totalPages] is the least number of pages that hold the total. *)
Theorem querySolr_page_based (p : Solr.Params.t) (r : Solr.SolrQueryResult) :
  Solr.Params.offset p = None ->
  (0 < default 20 (Solr.Params.pageSize p))%Z ->
  fst (querySolr p) = Normal r ->
  let ps := default 20%Z (Solr.Params.pageSize p) in
  let page := default 1%Z (Solr.Params.page p) in
  Solr.pageSize r = ps /\
  Solr.currentPage r = Solr.Int (page - 1) /\
  Solr.hasPrevPage r = (1 <? page)%Z /\
  Solr.hasNextPage r = (page * ps <? Solr.total r)%Z /\
  exists n, Solr.totalPages r = Solr.Int n /\
            ((n - 1) * ps < Solr.total r <= n * ps)%Z.
Proof.
  intros Hoff Hps Hrun. cbv zeta.
  destruct (pagination_of_offset p r Hps Hrun) as (Hsize & Hcur & Hprev & Hnext & Htot).
  cbv zeta in Hcur, Hprev, Hnext. unfold startOffset in Hcur, Hprev, Hnext.
  rewrite Hoff in Hcur, Hprev, Hnext.
  rewrite Z.div_mul in Hcur, Hnext by lia.
  split; [exact Hsize|]. split; [exact Hcur|].
  split; [rewrite Hprev; apply eq_true_iff_eq; rewrite Z.ltb_lt, Z.leb_le; nia|].
  split; [rewrite Hnext; f_equal; lia | exact Htot].
Qed.

(** X14. With a positive page size and an [offset], [page] is ignored:
    whenever [querySolr] returns, [currentPage] is [offset / pageSize] rounded
    down, there is a previous page exactly when [offset] is at least one page
    size, and a next page exactly when the end of the page that holds
    [offset] is below the total. *)
Theorem querySolr_offset_based
    (p : Solr.Params.t) (r : Solr.SolrQueryResult) (o : Z) :
  Solr.Params.offset p = Some o ->
  (0 < default 20 (Solr.Params.pageSize p))%Z ->
  fst (querySolr p) = Normal r ->
  let ps := default 20%Z (Solr.Params.pageSize p) in
  Solr.currentPage r = Solr.Int (o / ps) /\
  (o / ps * ps <= o < (o / ps + 1) * ps)%Z /\
  Solr.hasPrevPage r = (ps <=? o)%Z /\
  Solr.hasNextPage r = ((o / ps + 1) * ps <? Solr.total r)%Z.
Proof.
  intros Hoff Hps Hrun. cbv zeta.
  destruct (pagination_of_offset p r Hps Hrun) as (_ & Hcur & Hprev & Hnext & _).
  cbv zeta in Hcur, Hprev, Hnext. unfold startOffset in Hcur, Hprev, Hnext.
  rewrite Hoff in Hcur, Hprev, Hnext.
  split; [exact Hcur|].
  split; [apply floor_quotient_bounds, Hps|].
  split; [exact Hprev | exact Hnext].
Qed.

(** X15. A page size of 0 is not rejected.  Without an [offset], whenever
    [querySolr] then returns, [currentPage] is NaN, both [hasNextPage] and
    [hasPrevPage] are false, and [totalPages] is infinite when the total is
    positive and NaN when it is 0. *)
Theorem querySolr_zero_page_size (p : Solr.Params.t) (r : Solr.SolrQueryResult) :
  Solr.Params.pageSize p = Some 0%Z ->
  Solr.Params.offset p = None ->
  fst (querySolr p) = Normal r ->
  Solr.currentPage r = Solr.NotANumber /\
  Solr.hasNextPage r = false /\
  Solr.hasPrevPage r = false /\
  Solr.totalPages r =
    (if (0 <? Solr.total r)%Z then Solr.PosInf
     else if (Solr.total r <? 0)%Z then Solr.NegInf
     else Solr.NotANumber).
Proof.
  intros Hsize Hoff Hrun.
  destruct (querySolr_success p r Hrun) as (_ & Hcur & Htot & Hnext & Hprev).
  cbv zeta in Hcur, Htot. unfold startOffset in Hcur.
  rewrite Hsize, Hoff in Hcur. rewrite Hsize in Htot.
  cbn [default from_option id] in Hcur, Htot.
  rewrite Z.mul_0_r in Hcur.
  unfold Solr.floor_div, Solr.ceil_div, Solr.quotient in Hcur, Htot.
  cbn in Hcur, Htot.
  rewrite Hcur in Hnext, Hprev. cbn [Solr.num_lt] in Hnext, Hprev.
  repeat split; assumption.
Qed.

Lemma querySolr_requests_run (p : Solr.Params.t) :
  Solr.requests (snd (querySolr p)) =
  if String.eqb (Solr.Params.core p) "" then []
  else
    let sp :=
      Solr.searchParams (default "*:*" (Solr.Params.query p))
        (default 20%Z (Solr.Params.pageSize p)) (startOffset p)
        (default [] (Solr.Params.additionalParams p)) in
    if isServer then
      if negb (Clients.env_truthy SOLR_USERNAME) ||
         negb (Clients.env_truthy SOLR_PASSWORD)
      then []
      else
        [ {| Solr.url := Solr.template SOLR_URL +:+ "/" +:+ Solr.Params.core p +:+
                         "/select?" +:+ serialize sp;
             Solr.headers :=
               [("Authorization",
                 "Basic " +:+ base64 (Solr.template SOLR_USERNAME +:+ ":" +:+
                                      Solr.template SOLR_PASSWORD));
                ("Content-Type", "application/json")];
             Solr.next := Some (default 3600%Z (Solr.Params.revalidate p),
                                default ["solr"] (Solr.Params.tags p));
             Solr.cache := None |} ]
    else
      [ {| Solr.url := "/api/solr/" +:+ Solr.Params.core p +:+ "?" +:+ serialize sp;
           Solr.headers := [("Content-Type", "application/json")];
           Solr.next := None;
           Solr.cache := None |} ].
Proof.
  unfold querySolr, Solr.querySolr, startOffset. cbv zeta.
  destruct (String.eqb (Solr.Params.core p) ""); [reflexivity|].
  solr_unfold.
  destruct isServer.
  - destruct (negb (Clients.env_truthy SOLR_USERNAME) ||
              negb (Clients.env_truthy SOLR_PASSWORD)).
    + destruct (Solr.message_or_error objects _); reflexivity.
    + destruct (fetch _) as [resp|e].
      * destruct (Solr.ok resp); cbn [negb].
        -- destruct (Solr.json resp) as [result|e]; [reflexivity|].
           destruct (Solr.message_or_error objects _); reflexivity.
        -- destruct (Solr.text resp) as [t|e];
             destruct (Solr.message_or_error objects _); reflexivity.
      * destruct (Solr.message_or_error objects _); reflexivity.
  - destruct (fetch _) as [resp|e].
    + destruct (Solr.ok resp); cbn [negb].
      * destruct (Solr.json resp) as [result|e]; [reflexivity|].
        destruct (Solr.message_or_error objects _); reflexivity.
      * destruct (Solr.text resp) as [t|e];
          destruct (Solr.message_or_error objects _); reflexivity.
    + destruct (Solr.message_or_error objects _); reflexivity.
Qed.

(** X16. [querySolr] sends at most one request.  It sends none when [core]
    is empty, and none on the server when the user name or the password is
    not configured.  On the server the request goes to
    [SOLR_URL/core/select] with basic authorization; in the browser it goes
    to the relative [/api/solr/core] and carries no [Authorization] header. *)
Theorem querySolr_requests (p : Solr.Params.t) :
  Solr.requests (snd (querySolr p)) =
  if String.eqb (Solr.Params.core p) "" then []
  else
    let sp :=
      Solr.searchParams (default "*:*" (Solr.Params.query p))
        (default 20%Z (Solr.Params.pageSize p)) (startOffset p)
        (default [] (Solr.Params.additionalParams p)) in
    if isServer then
      if negb (Clients.env_truthy SOLR_USERNAME) ||
         negb (Clients.env_truthy SOLR_PASSWORD)
      then []
      else
        [ {| Solr.url := Solr.template SOLR_URL +:+ "/" +:+ Solr.Params.core p +:+
                         "/select?" +:+ serialize sp;
             Solr.headers :=
               [("Authorization",
                 "Basic " +:+ base64 (Solr.template SOLR_USERNAME +:+ ":" +:+
                                      Solr.template SOLR_PASSWORD));
                ("Content-Type", "application/json")];
             Solr.next := Some (default 3600%Z (Solr.Params.revalidate p),
                                default ["solr"] (Solr.Params.tags p));
             Solr.cache := None |} ]
    else
      [ {| Solr.url := "/api/solr/" +:+ Solr.Params.core p +:+ "?" +:+ serialize sp;
           Solr.headers := [("Content-Type", "application/json")];
           Solr.next := None;
           Solr.cache := None |} ].
Proof.
  unfold querySolr, Solr.querySolr, startOffset. cbv zeta.
  destruct (String.eqb (Solr.Params.core p) ""); [reflexivity|].
  solr_unfold.
  destruct isServer.
  - destruct (negb (Clients.env_truthy SOLR_USERNAME) ||
              negb (Clients.env_truthy SOLR_PASSWORD)).
    + destruct (Solr.message_or_error objects _); reflexivity.
    + destruct (fetch _) as [resp|e].
      * destruct (Solr.ok resp); cbn [negb].
        -- destruct (Solr.json resp) as [result|e]; [reflexivity|].
           destruct (Solr.message_or_error objects _); reflexivity.
        -- destruct (Solr.text resp) as [t|e];
             destruct (Solr.message_or_error objects _); reflexivity.
      * destruct (Solr.message_or_error objects _); reflexivity.
  - destruct (fetch _) as [resp|e].
    + destruct (Solr.ok resp); cbn [negb].
      * destruct (Solr.json resp) as [result|e]; [reflexivity|].
        destruct (Solr.message_or_error objects _); reflexivity.
      * destruct (Solr.text resp) as [t|e];
          destruct (Solr.message_or_error objects _); reflexivity.
    + destruct (Solr.message_or_error objects _); reflexivity.
Qed.

(** X17. When the reply to the request is not [ok] and its text can be read,
    [querySolr] throws an [Error] that names the status, after writing two
    lines to [console.error]: the reply's text, and then the failure, since
    its own handler catches the error it has just thrown.  The reply is not
    parsed. *)
Theorem querySolr_error_status
    (p : Solr.Params.t) (req : Solr.Request) (resp : Solr.Response)
    (errorText : string) :
  In req (Solr.requests (snd (querySolr p))) ->
  fetch req = Normal resp ->
  Solr.ok resp = false ->
  Solr.text resp = Normal errorText ->
  let message := "Solr request failed with status " +:+ pretty (Solr.status resp) +:+
                 ". Check console for full error." in
  querySolr p =
  (Throw (VError message),
   [Solr.Fetched req;
    Solr.ConsoleError "Solr error response:" (VStr errorText);
    Solr.ConsoleError "Fetch Solr failed:" (VStr message)]).
Proof.
  intros Hin Hfetch Hok Htext message.
  assert (Hmsg : Solr.message_or_error objects (VError message) = Normal (VStr message))
    by reflexivity.
  rewrite querySolr_requests_run in Hin.
  unfold querySolr, Solr.querySolr, startOffset in *. cbv zeta in *.
  destruct (String.eqb (Solr.Params.core p) ""); [destruct Hin|].
  solr_unfold.
  destruct isServer.
  - destruct (negb (Clients.env_truthy SOLR_USERNAME) ||
              negb (Clients.env_truthy SOLR_PASSWORD)); [destruct Hin|].
    destruct Hin as [<-|[]].
    rewrite Hfetch, Hok. cbn [negb]. rewrite Htext. fold message.
    rewrite Hmsg. reflexivity.
  - destruct Hin as [<-|[]].
    rewrite Hfetch, Hok. cbn [negb]. rewrite Htext. fold message.
    rewrite Hmsg. reflexivity.
Qed.

(** *** The service *)

Let getProductGroups :=
  Solr.getProductGroups SOLR_URL SOLR_USERNAME SOLR_PASSWORD base64 serialize
    fetch isServer objects.

Lemma getProductGroups_run (params : option Solr.Pagination.t) :
  getProductGroups params =
  match querySolr (Solr.groups_query params) with
  | (Normal r, done) =>
      (Normal (Some {| Solr.data := map Solr.toProductGroup (Solr.docs r);
                       Solr.pagination := r |}),
       done)
  | (Throw error, done) =>
      (Normal None,
       done ++ [Solr.ConsoleError "Error fetching product groups:" error])
  end.
Proof.
  unfold getProductGroups, Solr.getProductGroups, querySolr.
  unfold Solr.wcatch, Solr.wbind at 1, Solr.wret.
  destruct (Solr.querySolr _ _ _ _ _ _ _ _ _) as [[r|error] done].
  - rewrite app_nil_r. reflexivity.
  - unfold Solr.wbind, Solr.tell. reflexivity.
Qed.

(** X18. [SolrService.getProductGroups] never throws.  When [querySolr]
    returns, it returns the documents, each mapped to a product group, with
    the pagination of the result; when [querySolr] throws, it writes the error
    to [console.error], after what [querySolr] wrote, and returns [null]. *)
Theorem getProductGroups_never_throws (params : option Solr.Pagination.t) :
  getProductGroups params =
  match querySolr (Solr.groups_query params) with
  | (Normal r, done) =>
      (Normal (Some {| Solr.data := map Solr.toProductGroup (Solr.docs r);
                       Solr.pagination := r |}),
       done)
  | (Throw error, done) =>
      (Normal None,
       done ++ [Solr.ConsoleError "Error fetching product groups:" error])
  end.
Proof.
  unfold getProductGroups, Solr.getProductGroups, querySolr.
  unfold Solr.wcatch, Solr.wbind at 1, Solr.wret.
  destruct (Solr.querySolr _ _ _ _ _ _ _ _ _) as [[r|error] done].
  - rewrite app_nil_r. reflexivity.
  - unfold Solr.wbind, Solr.tell. reflexivity.
Qed.

Lemma number_or_nonzero (v : option Z) (d : Z) :
  d <> 0%Z -> Solr.number_or v d <> 0%Z.
Proof.
  intros Hd. unfold Solr.number_or.
  destruct v as [n|]; [|exact Hd].
  destruct (Z.eqb_spec n 0); [exact Hd | assumption].
Qed.

(** X19. Through the service a division by zero cannot happen: a page size
    of 0, like a missing one, is replaced by 10 and a page of 0 by 1, so
    whenever [getProductGroups] returns a result its page size is not 0,
    [currentPage] is the requested page minus one, and [totalPages] is an
    integer. *)
Theorem getProductGroups_pages_are_integers
    (params : option Solr.Pagination.t) (result : Solr.PaginatedResult) :
  fst (getProductGroups params) = Normal (Some result) ->
  let askedPage := match params with
                   | Some asked => Solr.Pagination.page asked
                   | None => None
                   end in
  let askedSize := match params with
                   | Some asked => Solr.Pagination.pageSize asked
                   | None => None
                   end in
  Solr.pageSize (Solr.pagination result) = Solr.number_or askedSize 10 /\
  Solr.pageSize (Solr.pagination result) <> 0%Z /\
  Solr.currentPage (Solr.pagination result) =
    Solr.Int (Solr.number_or askedPage 1 - 1) /\
  exists n, Solr.totalPages (Solr.pagination result) = Solr.Int n.
Proof.
  rewrite getProductGroups_run.
  destruct (querySolr (Solr.groups_query params)) as [[r|error] done] eqn:Hrun;
    cbn [fst]; [|discriminate].
  intros [= <-]. cbv zeta. cbn [Solr.pagination].
  assert (Hfst : fst (querySolr (Solr.groups_query params)) = Normal r)
    by (rewrite Hrun; reflexivity).
  destruct (querySolr_success _ r Hfst) as (Hsize & Hcur & Htot & _).
  cbv zeta in Hsize, Hcur, Htot. unfold startOffset in Hcur.
  cbn [Solr.groups_query Solr.Params.pageSize Solr.Params.page Solr.Params.offset
         default from_option id] in Hsize, Hcur, Htot.
  set (ps := Solr.number_or _ 10) in *.
  assert (Hnz : ps <> 0%Z) by (apply number_or_nonzero; discriminate).
  unfold Solr.floor_div, Solr.ceil_div, Solr.quotient in Hcur, Htot.
  apply Z.eqb_neq in Hnz as Hnzb. rewrite Hnzb in Hcur, Htot.
  rewrite Z.div_mul in Hcur by exact Hnz.
  split; [exact Hsize|]. split; [rewrite Hsize; exact Hnz|].
  split; [exact Hcur|]. eexists. exact Htot.
Qed.

End SolrRuns.

(** *** The route *)

Section RouteRuns.

Variables SOLR_URL SOLR_USERNAME SOLR_PASSWORD : option string.
Variable base64 : string -> string.
Variable serialize : list (string * string) -> string.
Variable fetch : Solr.Request -> completion Solr.Response.
Variable objects : store.
Variable construction_error : Z -> option value.

Let GET :=
  Solr.GET SOLR_URL SOLR_USERNAME SOLR_PASSWORD base64 fetch objects
    construction_error.

Lemma GET_run (core queryString : string) :
  let bad_gateway e :=
    {| Solr.route_status := 502;
       Solr.body := Solr.JsonBody [("error", VStr "Failed to reach Solr");
                                   ("details", Solr.details_of objects e)] |} in
  let req :=
    {| Solr.url := Solr.template SOLR_URL +:+ "/" +:+ core +:+ "/select?" +:+
                   queryString;
       Solr.headers :=
         [("Authorization",
           "Basic " +:+ base64 (Solr.template SOLR_USERNAME +:+ ":" +:+
                                Solr.template SOLR_PASSWORD));
          ("Content-Type", "application/json")];
       Solr.next := None;
       Solr.cache := Some "no-store" |} in
  GET core queryString =
  if negb (Clients.env_truthy SOLR_URL) ||
     negb (Clients.env_truthy SOLR_USERNAME) ||
     negb (Clients.env_truthy SOLR_PASSWORD)
  then
    (Normal {| Solr.route_status := 500;
               Solr.body :=
                 Solr.JsonBody
                   [("error", VStr "Solr environment variables are not configured")] |},
     [])
  else if String.eqb core "" then
    (Normal {| Solr.route_status := 400;
               Solr.body := Solr.JsonBody [("error", VStr "Core is required")] |},
     [])
  else
    (Normal
       match fetch req with
       | Throw e => bad_gateway e
       | Normal resp =>
           match Solr.text resp with
           | Throw e => bad_gateway e
           | Normal bodyText =>
               match construction_error (Solr.status resp) with
               | Some e => bad_gateway e
               | None => {| Solr.route_status := Solr.status resp;
                            Solr.body := Solr.TextBody bodyText |}
               end
           end
       end,
     [Solr.Fetched req]).
Proof.
  cbv zeta. unfold GET, Solr.GET.
  destruct (negb (Clients.env_truthy SOLR_URL) ||
            negb (Clients.env_truthy SOLR_USERNAME) ||
            negb (Clients.env_truthy SOLR_PASSWORD)); [reflexivity|].
  destruct (String.eqb core ""); [reflexivity|].
  unfold Solr.wcatch, Solr.wbind, Solr.wret, Solr.wthrow, Solr.lift, Solr.do_fetch.
  destruct (fetch _) as [resp|e]; [|reflexivity].
  destruct (Solr.text resp) as [bodyText|e]; [|reflexivity].
  destruct (construction_error (Solr.status resp)); reflexivity.
Qed.

(** X20. The route handler never throws and sends at most one request.
    Without the three environment variables it answers 500, and with an empty
    [core] 400, both without a request.  Otherwise it answers 502 with the
    details of the error when the request, the reading of the reply's text
    or the construction of the response fails, and else passes on the
    status and the text of Solr's reply. *)
Theorem GET_always_responds (core queryString : string) :
  let bad_gateway e :=
    {| Solr.route_status := 502;
       Solr.body := Solr.JsonBody [("error", VStr "Failed to reach Solr");
                                   ("details", Solr.details_of objects e)] |} in
  let req :=
    {| Solr.url := Solr.template SOLR_URL +:+ "/" +:+ core +:+ "/select?" +:+
                   queryString;
       Solr.headers :=
         [("Authorization",
           "Basic " +:+ base64 (Solr.template SOLR_USERNAME +:+ ":" +:+
                                Solr.template SOLR_PASSWORD));
          ("Content-Type", "application/json")];
       Solr.next := None;
       Solr.cache := Some "no-store" |} in
  GET core queryString =
  if negb (Clients.env_truthy SOLR_URL) ||
     negb (Clients.env_truthy SOLR_USERNAME) ||
     negb (Clients.env_truthy SOLR_PASSWORD)
  then
    (Normal {| Solr.route_status := 500;
               Solr.body :=
                 Solr.JsonBody
                   [("error", VStr "Solr environment variables are not configured")] |},
     [])
  else if String.eqb core "" then
    (Normal {| Solr.route_status := 400;
               Solr.body := Solr.JsonBody [("error", VStr "Core is required")] |},
     [])
  else
    (Normal
       match fetch req with
       | Throw e => bad_gateway e
       | Normal resp =>
           match Solr.text resp with
           | Throw e => bad_gateway e
           | Normal bodyText =>
               match construction_error (Solr.status resp) with
               | Some e => bad_gateway e
               | None => {| Solr.route_status := Solr.status resp;
                            Solr.body := Solr.TextBody bodyText |}
               end
           end
       end,
     [Solr.Fetched req]).
Proof.
  cbv zeta. unfold GET, Solr.GET.
  destruct (negb (Clients.env_truthy SOLR_URL) ||
            negb (Clients.env_truthy SOLR_USERNAME) ||
            negb (Clients.env_truthy SOLR_PASSWORD)); [reflexivity|].
  destruct (String.eqb core ""); [reflexivity|].
  unfold Solr.wcatch, Solr.wbind, Solr.wret, Solr.wthrow, Solr.lift, Solr.do_fetch.
  destruct (fetch _) as [resp|e]; [|reflexivity].
  destruct (Solr.text resp) as [bodyText|e]; [|reflexivity].
  destruct (construction_error (Solr.status resp)); reflexivity.
Qed.

(** X21. The route relays a browser's query to where the server would have
    sent it: when the environment is configured and [core] is not empty, the
    request [GET] sends for the query string of [querySolr]'s parameters has
    the URL and the headers of the request [querySolr] sends on the server. *)
Theorem route_relays_like_server (p : Solr.Params.t) :
  Clients.env_truthy SOLR_URL = true ->
  Clients.env_truthy SOLR_USERNAME = true ->
  Clients.env_truthy SOLR_PASSWORD = true ->
  Solr.Params.core p <> "" ->
  let sp :=
    Solr.searchParams (default "*:*" (Solr.Params.query p))
      (default 20%Z (Solr.Params.pageSize p))
      (match Solr.Params.offset p with
       | Some o => o
       | None => (default 1 (Solr.Params.page p) - 1) *
                 default 20 (Solr.Params.pageSize p)
       end)%Z
      (default [] (Solr.Params.additionalParams p)) in
  exists relayed direct,
    Solr.requests (snd (GET (Solr.Params.core p) (serialize sp))) = [relayed] /\
    Solr.requests
      (snd (Solr.querySolr SOLR_URL SOLR_USERNAME SOLR_PASSWORD base64 serialize
              fetch true objects p)) = [direct] /\
    Solr.url relayed = Solr.url direct /\
    Solr.headers relayed = Solr.headers direct.
Proof.
  intros Hurl Huser Hpass Hcore. cbv zeta.
  apply String.eqb_neq in Hcore.
  rewrite GET_run. cbv zeta.
  rewrite querySolr_requests_run.
  rewrite Hurl, Huser, Hpass, Hcore. cbn [negb orb snd Solr.requests].
  eexists _, _. repeat split.
Qed.

End RouteRuns.

(** *** Sample runs *)

Example page_2_of_20_result :
  fst (querySolr_on_server fetch_45 page_2_of_20) =
  Normal {| Solr.docs := [ [("id", VStr "g1"); ("name_s", VStr "Fruit")];
                           [("id", VStr "g2"); ("name_s", VStr "Dairy")] ];
            Solr.total := 45;
            Solr.pageSize := 20;
            Solr.currentPage := Solr.Int 1;
            Solr.totalPages := Solr.Int 3;
            Solr.hasNextPage := true;
            Solr.hasPrevPage := true |}.
Proof. vm_compute. reflexivity. Qed.

Example page_2_of_20_request :
  Solr.requests (snd (querySolr_on_server fetch_45 page_2_of_20)) =
  [ {| Solr.url :=
         "http://solr:8983/solr/product_groups/select?q=*:*&rows=20&wt=json&start=20";
       Solr.headers := [("Authorization", "Basic reader:secret");
                        ("Content-Type", "application/json")];
       Solr.next := Some (3600%Z, ["solr"]);
       Solr.cache := None |} ].
Proof. vm_compute. reflexivity. Qed.

Lemma querySolr_page_based_witness :
  Solr.pageSize result_page_2 = 20%Z /\
  Solr.currentPage result_page_2 = Solr.Int (2 - 1) /\
  Solr.hasPrevPage result_page_2 = (1 <? 2)%Z /\
  Solr.hasNextPage result_page_2 = (2 * 20 <? Solr.total result_page_2)%Z /\
  exists n, Solr.totalPages result_page_2 = Solr.Int n /\
            ((n - 1) * 20 < Solr.total result_page_2 <= n * 20)%Z.
Proof.
  apply (querySolr_page_based
           (Some "http://solr:8983/solr") (Some "reader") (Some "secret")
           (fun s => s) plain_serialize fetch_45 true [] page_2_of_20 result_page_2);
    [reflexivity | reflexivity | vm_compute; reflexivity].
Defined.

Lemma querySolr_offset_based_witness :
  Solr.currentPage result_page_2 = Solr.Int (25 / 20) /\
  (25 / 20 * 20 <= 25 < (25 / 20 + 1) * 20)%Z /\
  Solr.hasPrevPage result_page_2 = (20 <=? 25)%Z /\
  Solr.hasNextPage result_page_2 = ((25 / 20 + 1) * 20 <? Solr.total result_page_2)%Z.
Proof.
  apply (querySolr_offset_based
           (Some "http://solr:8983/solr") (Some "reader") (Some "secret")
           (fun s => s) plain_serialize fetch_45 true [] offset_25_of_20
           result_page_2 25);
    [reflexivity | reflexivity | vm_compute; reflexivity].
Defined.

Lemma querySolr_zero_page_size_witness :
  Solr.currentPage result_page_of_0 = Solr.NotANumber /\
  Solr.hasNextPage result_page_of_0 = false /\
  Solr.hasPrevPage result_page_of_0 = false /\
  Solr.totalPages result_page_of_0 =
    (if (0 <? Solr.total result_page_of_0)%Z then Solr.PosInf
     else if (Solr.total result_page_of_0 <? 0)%Z then Solr.NegInf
     else Solr.NotANumber).
Proof.
  apply (querySolr_zero_page_size
           (Some "http://solr:8983/solr") (Some "reader") (Some "secret")
           (fun s => s) plain_serialize fetch_45 true [] page_of_0 result_page_of_0);
    [reflexivity | reflexivity | vm_compute; reflexivity].
Defined.

Lemma querySolr_error_status_witness :
  querySolr_on_server fetch_503 page_2_of_20 =
  (Throw (VError "Solr request failed with status 503. Check console for full error."),
   [Solr.Fetched request_page_2;
    Solr.ConsoleError "Solr error response:" (VStr "Service Unavailable");
    Solr.ConsoleError "Fetch Solr failed:"
      (VStr "Solr request failed with status 503. Check console for full error.")]).
Proof.
  apply (querySolr_error_status
           (Some "http://solr:8983/solr") (Some "reader") (Some "secret")
           (fun s => s) plain_serialize fetch_503 true [] page_2_of_20
           request_page_2
           {| Solr.ok := false;
              Solr.status := 503;
              Solr.text := Normal "Service Unavailable";
              Solr.json := Throw (VError "Unexpected token S in JSON") |}
           "Service Unavailable");
    [vm_compute; left; reflexivity | reflexivity | reflexivity | reflexivity].
Defined.

Lemma getProductGroups_pages_are_integers_witness :
  Solr.pageSize (Solr.pagination groups_first_ten) = Solr.number_or (Some 0%Z) 10 /\
  Solr.pageSize (Solr.pagination groups_first_ten) <> 0%Z /\
  Solr.currentPage (Solr.pagination groups_first_ten) =
    Solr.Int (Solr.number_or (Some 0%Z) 1 - 1) /\
  exists n, Solr.totalPages (Solr.pagination groups_first_ten) = Solr.Int n.
Proof.
  apply (getProductGroups_pages_are_integers
           (Some "http://solr:8983/solr") (Some "reader") (Some "secret")
           (fun s => s) plain_serialize fetch_45 true []
           groups_page_0_size_0 groups_first_ten).
  vm_compute. reflexivity.
Defined.

Lemma route_relays_like_server_witness :
  exists relayed direct,
    Solr.requests
      (snd (Solr.GET (Some "http://solr:8983/solr") (Some "reader") (Some "secret")
              (fun s => s) fetch_45 [] (fun _ => None) "product_groups"
              (plain_serialize
                 (Solr.searchParams "*:*" 20 ((2 - 1) * 20) [])))) = [relayed] /\
    Solr.requests (snd (querySolr_on_server fetch_45 page_2_of_20)) = [direct] /\
    Solr.url relayed = Solr.url direct /\
    Solr.headers relayed = Solr.headers direct.
Proof.
  apply (route_relays_like_server
           (Some "http://solr:8983/solr") (Some "reader") (Some "secret")
           (fun s => s) plain_serialize fetch_45 [] (fun _ => None) page_2_of_20);
    [reflexivity | reflexivity | reflexivity | discriminate].
Defined.

(** ** Properties of the countdown's time parts *)

(** X22. For a duration that is not negative the four parts are the usual
    ones: hours below 24, minutes and seconds below 60, none negative, and
    together with the milliseconds left over they add up to the duration. *)
Theorem time_parts_add_up (duration : Z) :
  (0 <= duration)%Z ->
  let p := Countdown.getPartsofTimeDuration duration in
  (0 <= Countdown.days p)%Z /\
  (0 <= Countdown.hours p < 24)%Z /\
  (0 <= Countdown.minutes p < 60)%Z /\
  (0 <= Countdown.seconds p < 60)%Z /\
  (duration =
     Countdown.days p * Countdown.msInADay +
     Countdown.hours p * Countdown.msInAHour +
     Countdown.minutes p * Countdown.msInMinute +
     Countdown.seconds p * Countdown.msInSecond +
     duration mod 1000)%Z.
Proof.
  intros Hd.
  unfold Countdown.getPartsofTimeDuration, Countdown.msInADay, Countdown.msInAHour,
    Countdown.msInMinute, Countdown.msInSecond.
  cbn [Countdown.days Countdown.hours Countdown.minutes Countdown.seconds].
  rewrite !Z.rem_mod_nonneg by lia.
  change (24 * (60 * (60 * 1000)))%Z with 86400000%Z.
  change (60 * (60 * 1000))%Z with 3600000%Z.
  change (60 * 1000)%Z with 60000%Z.
  Z.div_mod_to_equations. lia.
Qed.

Lemma time_parts_add_up_witness :
  let p := Countdown.getPartsofTimeDuration 93784005 in
  (0 <= Countdown.days p)%Z /\
  (0 <= Countdown.hours p < 24)%Z /\
  (0 <= Countdown.minutes p < 60)%Z /\
  (0 <= Countdown.seconds p < 60)%Z /\
  (93784005 =
     Countdown.days p * Countdown.msInADay +
     Countdown.hours p * Countdown.msInAHour +
     Countdown.minutes p * Countdown.msInMinute +
     Countdown.seconds p * Countdown.msInSecond +
     93784005 mod 1000)%Z.
Proof. apply (time_parts_add_up 93784005). lia. Defined.

Example one_day_two_hours_three_minutes_four_seconds :
  Countdown.getPartsofTimeDuration 93784005 =
  {| Countdown.days := 1; Countdown.hours := 2;
     Countdown.minutes := 3; Countdown.seconds := 4 |}.
Proof. reflexivity. Qed.

(** X23. Once the end time has passed the parts are not clamped at 0: for a
    negative duration [days] is negative and no part is positive, with hours
    not below -24 and minutes and seconds not below -60. *)
Theorem time_parts_after_the_end (duration : Z) :
  (duration < 0)%Z ->
  let p := Countdown.getPartsofTimeDuration duration in
  (Countdown.days p < 0)%Z /\
  (-24 <= Countdown.hours p <= 0)%Z /\
  (-60 <= Countdown.minutes p <= 0)%Z /\
  (-60 <= Countdown.seconds p <= 0)%Z.
Proof.
  intros Hd.
  unfold Countdown.getPartsofTimeDuration, Countdown.msInADay, Countdown.msInAHour,
    Countdown.msInMinute, Countdown.msInSecond.
  cbn [Countdown.days Countdown.hours Countdown.minutes Countdown.seconds].
  change (24 * (60 * (60 * 1000)))%Z with 86400000%Z.
  change (60 * (60 * 1000))%Z with 3600000%Z.
  change (60 * 1000)%Z with 60000%Z.
  Z.to_euclidean_division_equations. lia.
Qed.

Lemma time_parts_after_the_end_witness :
  let p := Countdown.getPartsofTimeDuration (-1) in
  (Countdown.days p < 0)%Z /\
  (-24 <= Countdown.hours p <= 0)%Z /\
  (-60 <= Countdown.minutes p <= 0)%Z /\
  (-60 <= Countdown.seconds p <= 0)%Z.
Proof. apply (time_parts_after_the_end (-1)). lia. Defined.

Example one_millisecond_late :
  Countdown.getPartsofTimeDuration (-1) =
  {| Countdown.days := -1; Countdown.hours := -1;
     Countdown.minutes := -1; Countdown.seconds := -1 |}.
Proof. reflexivity. Qed.
